(** * JitsiMeetComponent: the connection lifecycle of the embedded widget

    A shallow embedding of [src/app/components/JitsiMeetComponent.tsx].

    The component is a React function component.  Its behaviour over time
    is determined by

    - two React state cells ([connectionStatus], [reconnectAttempts]),
    - two refs ([jitsiApiRef], [isReconnectingRef]),
    - the global [window.JitsiMeetExternalAPI],
    - the callbacks it hands to the browser and to the widget (script
      [onload]/[onerror], the [setInterval] monitor, the widget listeners),
      each of which is a closure over the render that created it, and
    - the single [useEffect], re-run whenever one of its dependencies
      [roomName, displayName, domain, reconnectAttempts] changes.

    All of it is modelled as explicit state passing over the record
    [Component]; every callback is a function [Component -> Component]
    that takes the closure it was created in as an argument. *)

From stdpp Require Import base gmap strings list pretty.

Local Open Scope string_scope.

(** ** Status model *)

(** The values [connectionStatus] ever holds.  In the source they are the
    string literals returned by [statusName]. *)
Inductive ConnectionStatus : Set :=
  | Connecting
  | Connected
  | Reconnecting
  | Left
  | Closed
  | Error
  | Failed.

Definition statusName (s : ConnectionStatus) : string :=
  match s with
  | Connecting => "connecting"
  | Connected => "connected"
  | Reconnecting => "reconnecting"
  | Left => "left"
  | Closed => "closed"
  | Error => "error"
  | Failed => "failed"
  end.

#[global] Instance ConnectionStatus_eq_dec : EqDecision ConnectionStatus.
Proof. solve_decision. Defined.

(** ** Props and closures *)

(** [interface JitsiMeetProps]: only [roomName] is mandatory; an omitted
    (undefined) prop is [None]. *)
Record JitsiMeetProps : Set := {
  p_roomName : string;
  p_displayName : option string;
  p_domain : option string;
  p_startWithAudioMuted : option bool;
  p_startWithVideoMuted : option bool;
}.

(** What the callbacks created during one render see: the destructured
    props (defaults applied) and that render's value of the state cell
    [reconnectAttempts]. *)
Record Scope : Set := {
  roomName : string;
  displayName : string;
  domain : string;
  startWithAudioMuted : bool;
  startWithVideoMuted : bool;
  attemptsSeen : nat;
}.

#[global] Instance Scope_eq_dec : EqDecision Scope.
Proof. solve_decision. Defined.

(** The parameter list of the component, lines 47-53. *)
Definition destructure (p : JitsiMeetProps) (attempts : nat) : Scope :=
  {| roomName := p_roomName p;
     displayName := default "User" (p_displayName p);
     domain := default "meet.jit.si" (p_domain p);
     startWithAudioMuted := default false (p_startWithAudioMuted p);
     startWithVideoMuted := default false (p_startWithVideoMuted p);
     attemptsSeen := attempts |}.

Definition MAX_RECONNECT_ATTEMPTS : nat := 3.

(** ** The options object handed to the widget constructor *)

Record ConfigOverwrite : Set := {
  prejoinPageEnabled : bool;
  co_startWithAudioMuted : bool;
  co_startWithVideoMuted : bool;
  disableThirdPartyRequests : bool;
  disableDeepLinking : bool;
  startBitrate : nat;
  disableAudioLevels : bool;
  enableLayerSuspension : bool;
  fileRecordingsEnabled : bool;
  liveStreamingEnabled : bool;
  disableSimulcast : bool;
  resolution : nat;
  videoHeightIdeal : nat;
  videoHeightMax : nat;
  videoHeightMin : nat;
  toolbarButtons : list string;
}.

Record InterfaceConfigOverwrite : Set := {
  SHOW_JITSI_WATERMARK : bool;
  SHOW_WATERMARK_FOR_GUESTS : bool;
  TOOLBAR_BUTTONS : list string;
  FILM_STRIP_ONLY : bool;
  HIDE_INVITE_MORE_HEADER : bool;
}.

Record JitsiMeetAPIOptions : Set := {
  o_roomName : string;
  o_width : string;
  o_height : string;
  userInfo_displayName : string;
  configOverwrite : ConfigOverwrite;
  interfaceConfigOverwrite : InterfaceConfigOverwrite;
}.

(** The object literal of lines 123-198 ([parentNode] is the container
    element, which is the same in every call and is left out). *)
Definition options (c : Scope) : JitsiMeetAPIOptions :=
  {| o_roomName := roomName c;
     o_width := "100%";
     o_height := "100%";
     userInfo_displayName := displayName c;
     configOverwrite :=
       {| prejoinPageEnabled := false;
          co_startWithAudioMuted := startWithAudioMuted c;
          co_startWithVideoMuted := startWithVideoMuted c;
          disableThirdPartyRequests := true;
          disableDeepLinking := true;
          startBitrate := 800;
          disableAudioLevels := true;
          enableLayerSuspension := true;
          fileRecordingsEnabled := false;
          liveStreamingEnabled := false;
          disableSimulcast := false;
          resolution := 720;
          videoHeightIdeal := 720;
          videoHeightMax := 720;
          videoHeightMin := 180;
          toolbarButtons :=
            ["microphone"; "camera"; "desktop"; "fullscreen";
             "fodeviceselection"; "hangup"; "profile"; "chat"; "settings";
             "raisehand"; "videoquality"; "filmstrip"; "tileview";
             "download"; "help"] |};
     interfaceConfigOverwrite :=
       {| SHOW_JITSI_WATERMARK := false;
          SHOW_WATERMARK_FOR_GUESTS := false;
          TOOLBAR_BUTTONS :=
            ["microphone"; "camera"; "desktop"; "fullscreen"; "hangup";
             "profile"; "chat"; "settings"; "raisehand"; "videoquality";
             "filmstrip"; "tileview"];
          FILM_STRIP_ONLY := false;
          HIDE_INVITE_MORE_HEADER := true |} |}.

(** ** The state of one mounted component and of the page around it *)

(** One [new window.JitsiMeetExternalAPI(domain, options)]: the arguments
    of the call and the render whose listeners were registered on it. *)
Record Instance : Set := {
  i_domain : string;
  i_options : JitsiMeetAPIOptions;
  i_listeners : Scope;
}.

(** One [script] element created by the effect. *)
Record ScriptTag : Set := {
  s_src : string;
  s_scope : Scope;      (* whose [initializeJitsi]/[handleScriptError] it carries *)
  s_inBody : bool;      (* [document.body.contains(script)] *)
  s_pending : bool;     (* neither [onload] nor [onerror] has fired yet *)
}.

(** The two cleanup functions the effect can return (lines 78-82 and
    89-94). *)
Inductive Cleanup : Set :=
  | RemoveScript (sid : nat)
  | DisposeInstance.

(** The dependency array of the effect, line 95. *)
Definition Deps : Set := (string * string * string * nat)%type.

Definition depsOf (c : Scope) : Deps :=
  (roomName c, displayName c, domain c, attemptsSeen c).

Record Component : Type := {
  props : JitsiMeetProps;
  mounted : bool;
  (* React state *)
  connectionStatus : ConnectionStatus;
  reconnectAttempts : nat;
  (* refs *)
  jitsiApiRef : option nat;
  isReconnectingRef : bool;
  (* the page *)
  JitsiMeetExternalAPI : bool;        (* [window.JitsiMeetExternalAPI] is defined *)
  instances : list Instance;          (* every widget ever constructed; a handle is an index *)
  disposals : list nat;               (* the [dispose()] calls, latest first *)
  intervals : gmap nat Scope;         (* live [setInterval] monitors *)
  nextInterval : nat;
  scripts : list ScriptTag;           (* every script element ever created *)
  (* React's record of the last run of the effect *)
  lastEffect : option (Deps * Cleanup);
}.

(** The component right after its first render, before the effect has
    run: [useState("connecting")], [useState(0)], [useRef(null)],
    [useRef(false)]. *)
Definition mount (p : JitsiMeetProps) (apiLoaded : bool) : Component :=
  {| props := p;
     mounted := true;
     connectionStatus := Connecting;
     reconnectAttempts := 0;
     jitsiApiRef := None;
     isReconnectingRef := false;
     JitsiMeetExternalAPI := apiLoaded;
     instances := [];
     disposals := [];
     intervals := ∅;
     nextInterval := 0;
     scripts := [];
     lastEffect := None |}.

(** *** Field updates *)

Definition with_props (p : JitsiMeetProps) (w : Component) : Component :=
  {| props := p; mounted := mounted w;
     connectionStatus := connectionStatus w;
     reconnectAttempts := reconnectAttempts w;
     jitsiApiRef := jitsiApiRef w; isReconnectingRef := isReconnectingRef w;
     JitsiMeetExternalAPI := JitsiMeetExternalAPI w;
     instances := instances w; disposals := disposals w;
     intervals := intervals w; nextInterval := nextInterval w;
     scripts := scripts w; lastEffect := lastEffect w |}.

Definition with_mounted (b : bool) (w : Component) : Component :=
  {| props := props w; mounted := b;
     connectionStatus := connectionStatus w;
     reconnectAttempts := reconnectAttempts w;
     jitsiApiRef := jitsiApiRef w; isReconnectingRef := isReconnectingRef w;
     JitsiMeetExternalAPI := JitsiMeetExternalAPI w;
     instances := instances w; disposals := disposals w;
     intervals := intervals w; nextInterval := nextInterval w;
     scripts := scripts w; lastEffect := lastEffect w |}.

Definition with_connectionStatus (s : ConnectionStatus) (w : Component) : Component :=
  {| props := props w; mounted := mounted w;
     connectionStatus := s;
     reconnectAttempts := reconnectAttempts w;
     jitsiApiRef := jitsiApiRef w; isReconnectingRef := isReconnectingRef w;
     JitsiMeetExternalAPI := JitsiMeetExternalAPI w;
     instances := instances w; disposals := disposals w;
     intervals := intervals w; nextInterval := nextInterval w;
     scripts := scripts w; lastEffect := lastEffect w |}.

Definition with_reconnectAttempts (n : nat) (w : Component) : Component :=
  {| props := props w; mounted := mounted w;
     connectionStatus := connectionStatus w;
     reconnectAttempts := n;
     jitsiApiRef := jitsiApiRef w; isReconnectingRef := isReconnectingRef w;
     JitsiMeetExternalAPI := JitsiMeetExternalAPI w;
     instances := instances w; disposals := disposals w;
     intervals := intervals w; nextInterval := nextInterval w;
     scripts := scripts w; lastEffect := lastEffect w |}.

Definition with_jitsiApiRef (r : option nat) (w : Component) : Component :=
  {| props := props w; mounted := mounted w;
     connectionStatus := connectionStatus w;
     reconnectAttempts := reconnectAttempts w;
     jitsiApiRef := r; isReconnectingRef := isReconnectingRef w;
     JitsiMeetExternalAPI := JitsiMeetExternalAPI w;
     instances := instances w; disposals := disposals w;
     intervals := intervals w; nextInterval := nextInterval w;
     scripts := scripts w; lastEffect := lastEffect w |}.

Definition with_isReconnectingRef (b : bool) (w : Component) : Component :=
  {| props := props w; mounted := mounted w;
     connectionStatus := connectionStatus w;
     reconnectAttempts := reconnectAttempts w;
     jitsiApiRef := jitsiApiRef w; isReconnectingRef := b;
     JitsiMeetExternalAPI := JitsiMeetExternalAPI w;
     instances := instances w; disposals := disposals w;
     intervals := intervals w; nextInterval := nextInterval w;
     scripts := scripts w; lastEffect := lastEffect w |}.

Definition with_JitsiMeetExternalAPI (b : bool) (w : Component) : Component :=
  {| props := props w; mounted := mounted w;
     connectionStatus := connectionStatus w;
     reconnectAttempts := reconnectAttempts w;
     jitsiApiRef := jitsiApiRef w; isReconnectingRef := isReconnectingRef w;
     JitsiMeetExternalAPI := b;
     instances := instances w; disposals := disposals w;
     intervals := intervals w; nextInterval := nextInterval w;
     scripts := scripts w; lastEffect := lastEffect w |}.

Definition with_instances (m : list Instance) (w : Component) : Component :=
  {| props := props w; mounted := mounted w;
     connectionStatus := connectionStatus w;
     reconnectAttempts := reconnectAttempts w;
     jitsiApiRef := jitsiApiRef w; isReconnectingRef := isReconnectingRef w;
     JitsiMeetExternalAPI := JitsiMeetExternalAPI w;
     instances := m; disposals := disposals w;
     intervals := intervals w; nextInterval := nextInterval w;
     scripts := scripts w; lastEffect := lastEffect w |}.

Definition with_disposals (l : list nat) (w : Component) : Component :=
  {| props := props w; mounted := mounted w;
     connectionStatus := connectionStatus w;
     reconnectAttempts := reconnectAttempts w;
     jitsiApiRef := jitsiApiRef w; isReconnectingRef := isReconnectingRef w;
     JitsiMeetExternalAPI := JitsiMeetExternalAPI w;
     instances := instances w; disposals := l;
     intervals := intervals w; nextInterval := nextInterval w;
     scripts := scripts w; lastEffect := lastEffect w |}.

Definition with_intervals (m : gmap nat Scope) (n : nat) (w : Component) : Component :=
  {| props := props w; mounted := mounted w;
     connectionStatus := connectionStatus w;
     reconnectAttempts := reconnectAttempts w;
     jitsiApiRef := jitsiApiRef w; isReconnectingRef := isReconnectingRef w;
     JitsiMeetExternalAPI := JitsiMeetExternalAPI w;
     instances := instances w; disposals := disposals w;
     intervals := m; nextInterval := n;
     scripts := scripts w; lastEffect := lastEffect w |}.

Definition with_scripts (m : list ScriptTag) (w : Component) : Component :=
  {| props := props w; mounted := mounted w;
     connectionStatus := connectionStatus w;
     reconnectAttempts := reconnectAttempts w;
     jitsiApiRef := jitsiApiRef w; isReconnectingRef := isReconnectingRef w;
     JitsiMeetExternalAPI := JitsiMeetExternalAPI w;
     instances := instances w; disposals := disposals w;
     intervals := intervals w; nextInterval := nextInterval w;
     scripts := m; lastEffect := lastEffect w |}.

Definition with_lastEffect (e : option (Deps * Cleanup)) (w : Component) : Component :=
  {| props := props w; mounted := mounted w;
     connectionStatus := connectionStatus w;
     reconnectAttempts := reconnectAttempts w;
     jitsiApiRef := jitsiApiRef w; isReconnectingRef := isReconnectingRef w;
     JitsiMeetExternalAPI := JitsiMeetExternalAPI w;
     instances := instances w; disposals := disposals w;
     intervals := intervals w; nextInterval := nextInterval w;
     scripts := scripts w; lastEffect := e |}.

(** ** Primitives of React, the browser and the widget library *)

(** A state setter called after the component has unmounted does
    nothing. *)
Definition setConnectionStatus (s : ConnectionStatus) (w : Component) : Component :=
  if mounted w then with_connectionStatus s w else w.

Definition setReconnectAttempts (f : nat -> nat) (w : Component) : Component :=
  if mounted w then with_reconnectAttempts (f (reconnectAttempts w)) w else w.

Definition dispose (h : nat) (w : Component) : Component :=
  with_disposals (h :: disposals w) w.

Definition setInterval (c : Scope) (w : Component) : Component :=
  with_intervals (<[nextInterval w := c]> (intervals w)) (S (nextInterval w)) w.

Definition clearInterval (tid : nat) (w : Component) : Component :=
  with_intervals (delete tid (intervals w)) (nextInterval w) w.

(** [s.includes(sub)] *)
Definition includes (s sub : string) : bool :=
  match String.index 0 sub s with
  | Some _ => true
  | None => false
  end.

(** ** The callbacks of the component *)

(** Lines 313-327.  [c] is the render the calling callback was created
    in: the test reads that render's [reconnectAttempts], while the ref
    and the functional update [prev => prev + 1] act on the current
    values. *)
Definition handleConnectionIssue (c : Scope) (w : Component) : Component :=
  if isReconnectingRef w then w
  else
    let w := with_isReconnectingRef true w in
    let w := setConnectionStatus Reconnecting w in
    if decide (attemptsSeen c < MAX_RECONNECT_ATTEMPTS)
    then setReconnectAttempts (fun prev => prev + 1) w
    else setConnectionStatus Failed w.

(** Lines 100-103. *)
Definition handleScriptError (w : Component) : Component :=
  setConnectionStatus Error w.

(** Lines 108-308.  [ctorThrows] says whether the constructor call of
    line 201 throws.  The value [initializeJitsi] returns (a function
    clearing the interval and disconnecting the observer, lines 300-303)
    is dropped by both of its callers, so it is not part of the model;
    neither is the popup observer, which touches none of the state
    below. *)
Definition initializeJitsi (c : Scope) (ctorThrows : bool) (w : Component) : Component :=
  if negb (JitsiMeetExternalAPI w) then setConnectionStatus Error w
  else
    let w := match jitsiApiRef w with
             | Some h => with_jitsiApiRef None (dispose h w)
             | None => w
             end in
    if ctorThrows then setConnectionStatus Error w
    else
      let api := length (instances w) in
      let w := with_instances
                 (instances w ++
                  [{| i_domain := domain c; i_options := options c;
                      i_listeners := c |}]) w in
      let w := with_jitsiApiRef (Some api) w in
      let w := setConnectionStatus Connected w in
      let w := with_isReconnectingRef false w in
      setInterval c w.

(** The interval callback, lines 207-227.  [attached] is
    [document.contains(jitsiContainerRef.current)] and [probeThrows]
    says whether [getNumberOfParticipants()] throws, both at this tick. *)
Definition connectionMonitor (tid : nat) (c : Scope) (attached probeThrows : bool)
    (w : Component) : Component :=
  if negb (bool_decide (is_Some (jitsiApiRef w))) || negb attached
  then clearInterval tid w
  else if probeThrows
       then clearInterval tid (handleConnectionIssue c w)
       else w.

(** Lines 330-362 and the arrow function of lines 234-237. *)
Definition handleClose (w : Component) : Component :=
  setConnectionStatus Closed w.

Definition handleVideoConferenceJoined (w : Component) : Component :=
  setConnectionStatus Connected w.

Definition handleVideoConferenceLeft (w : Component) : Component :=
  setConnectionStatus Left w.

Definition connectionEstablished (w : Component) : Component :=
  setConnectionStatus Connected w.

Definition handleConnectionFailure (c : Scope) (w : Component) : Component :=
  handleConnectionIssue c w.

(** [error.error] is [None] when the payload has no such field. *)
Definition isServiceError (payload : option string) : bool :=
  match payload with
  | Some e => includes e "service" || includes e "limit"
  | None => false
  end.

Definition handleErrorOccurred (c : Scope) (payload : option string) (w : Component) : Component :=
  if isServiceError payload then handleConnectionIssue c w else w.

Definition handleSuspendDetected (c : Scope) (w : Component) : Component :=
  handleConnectionIssue c w.

(** The events the widget emits and the component listens to, lines
    230-241. *)
Inductive WidgetEvent : Set :=
  | ReadyToClose
  | VideoConferenceJoined
  | VideoConferenceLeft
  | ConnectionEstablished
  | ConnectionFailed
  | SuspendDetected
  | ErrorOccurred (payload : option string).

Definition listener (c : Scope) (e : WidgetEvent) (w : Component) : Component :=
  match e with
  | ReadyToClose => handleClose w
  | VideoConferenceJoined => handleVideoConferenceJoined w
  | VideoConferenceLeft => handleVideoConferenceLeft w
  | ConnectionEstablished => connectionEstablished w
  | ConnectionFailed => handleConnectionFailure c w
  | SuspendDetected => handleSuspendDetected c w
  | ErrorOccurred payload => handleErrorOccurred c payload w
  end.

(** ** The effect, lines 67-95 *)

Definition scriptSrc (c : Scope) : string :=
  "https://" ++ domain c ++ "/external_api.js".

(** The body of the effect; returns the cleanup it hands to React. *)
Definition effectBody (c : Scope) (ctorThrows : bool) (w : Component) : Component * Cleanup :=
  if negb (JitsiMeetExternalAPI w)
  then
    let sid := length (scripts w) in
    (with_scripts
       (scripts w ++
        [{| s_src := scriptSrc c; s_scope := c; s_inBody := true;
            s_pending := true |}]) w,
     RemoveScript sid)
  else (initializeJitsi c ctorThrows w, DisposeInstance).

Definition runCleanup (k : Cleanup) (w : Component) : Component :=
  match k with
  | RemoveScript sid =>
      match scripts w !! sid with
      | Some s =>
          if s_inBody s
          then with_scripts
                 (<[sid := {| s_src := s_src s; s_scope := s_scope s;
                              s_inBody := false; s_pending := s_pending s |}]>
                    (scripts w)) w
          else w
      | None => w
      end
  | DisposeInstance =>
      match jitsiApiRef w with
      | Some h => with_jitsiApiRef None (dispose h w)
      | None => w
      end
  end.

Definition runEffect (c : Scope) (ctorThrows : bool) (w : Component) : Component :=
  let '(w, k) := effectBody c ctorThrows w in
  with_lastEffect (Some (depsOf c, k)) w.

(** React after a render: the effect runs on the first render and
    whenever a dependency differs from the last run, the previous
    cleanup first. *)
Definition commit (ctorThrows : bool) (w : Component) : Component :=
  if mounted w then
    let c := destructure (props w) (reconnectAttempts w) in
    match lastEffect w with
    | None => runEffect c ctorThrows w
    | Some (d, k) =>
        if decide (d = depsOf c) then w
        else runEffect c ctorThrows (runCleanup k w)
    end
  else w.

Definition unmount (w : Component) : Component :=
  if mounted w then
    let w := match lastEffect w with
             | Some (_, k) => runCleanup k w
             | None => w
             end in
    with_lastEffect None (with_mounted false w)
  else w.

(** ** Runs *)

(** What can happen to a mounted component, one callback at a time.
    [Render] is React re-rendering and committing; between a state
    update and the next [Render] other callbacks may still run.  Nothing
    is assumed about the library and the browser beyond what the source
    relies on: a disposed widget may still call its listeners, and a
    script removed from the body may still load. *)
Inductive Event : Set :=
  | Render (ctorThrows : bool)
  | SetProps (p : JitsiMeetProps)
  | Unmount
  | ScriptOnload (sid : nat) (definesApi ctorThrows : bool)
  | ScriptOnerror (sid : nat)
  | Widget (api : nat) (e : WidgetEvent)
  | Tick (tid : nat) (attached probeThrows : bool).

Definition settle (sid : nat) (s : ScriptTag) (w : Component) : Component :=
  with_scripts
    (<[sid := {| s_src := s_src s; s_scope := s_scope s;
                 s_inBody := s_inBody s; s_pending := false |}]> (scripts w)) w.

Definition step (ev : Event) (w : Component) : Component :=
  match ev with
  | Render ctorThrows => commit ctorThrows w
  | SetProps p => if mounted w then with_props p w else w
  | Unmount => unmount w
  | ScriptOnload sid definesApi ctorThrows =>
      match scripts w !! sid with
      | Some s =>
          if s_pending s
          then initializeJitsi (s_scope s) ctorThrows
                 (with_JitsiMeetExternalAPI (JitsiMeetExternalAPI w || definesApi)
                    (settle sid s w))
          else w
      | None => w
      end
  | ScriptOnerror sid =>
      match scripts w !! sid with
      | Some s => if s_pending s then handleScriptError (settle sid s w) else w
      | None => w
      end
  | Widget api e =>
      match instances w !! api with
      | Some i => listener (i_listeners i) e w
      | None => w
      end
  | Tick tid attached probeThrows =>
      match intervals w !! tid with
      | Some c => connectionMonitor tid c attached probeThrows w
      | None => w
      end
  end.

Definition run (evs : list Event) (w : Component) : Component :=
  foldl (fun w ev => step ev w) w evs.

(** A state the component can be in: reached from a mount by some run. *)
Inductive reachable : Component -> Prop :=
  | reachable_mount p apiLoaded : reachable (mount p apiLoaded)
  | reachable_step ev w : reachable w -> reachable (step ev w).

(** The handles that are live: constructed and not disposed of. *)
Definition live (w : Component) : list nat :=
  filter (fun h => h ∉ disposals w) (seq 0 (length (instances w))).

(** ** The view, lines 365-411 *)

Record StatusLine : Set := {
  sl_className : string;
  sl_text : string;
}.

Definition renderConnectionStatus (s : ConnectionStatus) (attempts : nat) : option StatusLine :=
  match s with
  | Connecting =>
      Some {| sl_className := "p-4 text-center";
              sl_text := "Connecting to conference..." |}
  | Reconnecting =>
      Some {| sl_className := "p-4 text-center";
              sl_text := "Connection interrupted. Reconnecting... (Attempt "
                         ++ pretty attempts ++ "/"
                         ++ pretty MAX_RECONNECT_ATTEMPTS ++ ")" |}
  | Error =>
      Some {| sl_className := "p-4 text-center text-red-600";
              sl_text := "Failed to connect to the conference. Please try again." |}
  | Failed =>
      Some {| sl_className := "p-4 text-center text-red-600";
              sl_text := "Could not reconnect after multiple attempts. Please reload the page." |}
  | _ => None
  end.

Record MountElement : Set := {
  me_className : string;
  me_width : string;
  me_height : string;
  me_minHeight : string;
  me_position : string;
}.

Inductive Element : Set :=
  | StatusDiv (line : StatusLine)
  | MountDiv (m : MountElement).

(** [{cond && x}] renders [x] when [cond] holds and [x] is an element,
    and nothing when [cond] is false or [x] is [null]. *)
Definition renderedWhen (cond : bool) (x : option StatusLine) : list Element :=
  if cond then match x with Some l => [StatusDiv l] | None => [] end else [].

Definition mountElement (s : ConnectionStatus) : MountElement :=
  {| me_className := "jitsi-meet-container";
     me_width := "100%";
     me_height := if decide (s = Connected) then "100%" else "calc(100% - 40px)";
     me_minHeight := "600px";
     me_position := "relative" |}.

(** What the component returns, lines 395-411: the children of the outer
    [div], top to bottom. *)
Definition view (s : ConnectionStatus) (attempts : nat) : list Element :=
  renderedWhen (bool_decide (s ≠ Connected)) (renderConnectionStatus s attempts)
  ++ [MountDiv (mountElement s)].

(** ** Observations and predicates used in the statements *)

(** Whether React will run the effect at its next commit. *)
Definition effectPending (w : Component) : bool :=
  mounted w &&
  match lastEffect w with
  | None => true
  | Some (d, _) =>
      negb (bool_decide (d = depsOf (destructure (props w) (reconnectAttempts w))))
  end.

(** The callbacks that can run between two commits of React without
    running [initializeJitsi]: widget listeners, monitor ticks and script
    errors. *)
Definition isCallback (ev : Event) : bool :=
  match ev with
  | Widget _ _ | Tick _ _ _ | ScriptOnerror _ => true
  | _ => false
  end.

(** The events that are neither a change of props, nor an unmount, nor a
    late script load. *)
Definition isInternal (ev : Event) : bool :=
  match ev with
  | Render _ | Widget _ _ | Tick _ _ _ | ScriptOnerror _ => true
  | _ => false
  end.

(** [connectionFailed] fired by the widget whose handle is in the ref. *)
Definition connectionFails (w : Component) : Component :=
  match jitsiApiRef w with
  | Some h => step (Widget h ConnectionFailed) w
  | None => w
  end.

(** The same, followed by React's re-render and commit, in which the
    constructor does not throw. *)
Definition failAndRender (w : Component) : Component :=
  step (Render false) (connectionFails w).

(** Only [handleConnectionIssue] stores [Failed], after raising the flag;
    only a successful [initializeJitsi] lowers the flag, and it stores
    [Connected]. *)
Definition failed_in_flight (w : Component) : Prop :=
  mounted w = true -> connectionStatus w = Failed -> isReconnectingRef w = true.

(** With the flag raised and no effect due, nothing internal lowers the
    flag, counts a failure or constructs a widget. *)
Definition inert (w : Component) : Prop :=
  mounted w = true /\ isReconnectingRef w = true /\ effectPending w = false.

(** A connected component at rest with counter [n]: the library is on
    the page, no reconnect is in flight, the widget in the ref carries the
    listeners of the render that saw [n], and the effect last ran for the
    current props and [n]. *)
Definition settled (n : nat) (w : Component) : Prop :=
  mounted w = true /\
  JitsiMeetExternalAPI w = true /\
  connectionStatus w = Connected /\
  reconnectAttempts w = n /\
  isReconnectingRef w = false /\
  (exists h i, jitsiApiRef w = Some h /\ instances w !! h = Some i /\
               attemptsSeen (i_listeners i) = n) /\
  (exists k, lastEffect w = Some (depsOf (destructure (props w) n), k)).

(** ** Scenarios *)

(** A component given nothing but a room name. *)
Definition onlyRoomName (r : string) : JitsiMeetProps :=
  {| p_roomName := r;
     p_displayName := None;
     p_domain := None;
     p_startWithAudioMuted := None;
     p_startWithVideoMuted := None |}.

Definition standup : JitsiMeetProps := onlyRoomName "standup".

Definition otherRoom : JitsiMeetProps := onlyRoomName "retro".

(** A mount on a page that already has the library, the first widget
    constructed, then one [connectionFailed] and the re-render that
    follows it: the counter is 1 and the second widget is connected. *)
Definition afterOneReconnect : Component :=
  run [Render false; Widget 0 ConnectionFailed; Render false] (mount standup true).

(** Three times: [connectionFailed] from the widget then in the ref,
    followed by React's re-render. *)
Definition threeFailures : list Event :=
  [Widget 0 ConnectionFailed; Render false;
   Widget 1 ConnectionFailed; Render false;
   Widget 2 ConnectionFailed; Render false].

(** Three failures reported by the widgets, each answered by a
    reconnect, then a tick of the monitor started by the first
    [initializeJitsi], whose probe of the current widget throws. *)
Definition staleMonitorRun : list Event :=
  [Render false;
   Widget 0 ConnectionFailed; Render false;
   Widget 1 ConnectionFailed; Render false;
   Widget 2 ConnectionFailed; Render false;
   Tick 0 true true; Render false].

(** ** Invariants of the component *)

(** Who owns the widgets: no handle is disposed of twice, only
    constructed widgets are disposed of, the handle in the ref is a
    constructed widget that has not been disposed of, and every other
    constructed widget has been. *)
Definition owned (w : Component) : Prop :=
  NoDup (disposals w) /\
  (forall h, h ∈ disposals w -> h < length (instances w)) /\
  (forall h, jitsiApiRef w = Some h ->
             h < length (instances w) /\ h ∉ disposals w) /\
  (forall h, h < length (instances w) ->
             h ∈ disposals w \/ jitsiApiRef w = Some h).

(** No callback that exists was created in a render that saw a larger
    counter than the current one, and [failed] is only shown once the
    counter has reached the maximum. *)
Definition closures_behind (w : Component) : Prop :=
  (forall tid c, intervals w !! tid = Some c ->
                 attemptsSeen c <= reconnectAttempts w) /\
  (forall h i, instances w !! h = Some i ->
               attemptsSeen (i_listeners i) <= reconnectAttempts w) /\
  (forall sid s, scripts w !! sid = Some s ->
                 attemptsSeen (s_scope s) <= reconnectAttempts w) /\
  (connectionStatus w = Failed ->
   MAX_RECONNECT_ATTEMPTS <= reconnectAttempts w).

(** The scripts of the component that are in the document body. *)
Definition scriptsInBody (w : Component) : list ScriptTag :=
  filter (fun s => s_inBody s = true) (scripts w).

(** Every script still in the body is the one the current cleanup of the
    effect will remove. *)
Definition script_tracked (w : Component) : Prop :=
  forall sid s, scripts w !! sid = Some s -> s_inBody s = true ->
    exists d, lastEffect w = Some (d, RemoveScript sid).

(** No script of the component is in the body. *)
Definition noneInBody (w : Component) : Prop :=
  forall sid s, scripts w !! sid = Some s -> s_inBody s = false.

(** The scripts in the body are tracked, and an unmounted component has
    no cleanup left to run. *)
Definition script_inv (w : Component) : Prop :=
  script_tracked w /\ (mounted w = false -> lastEffect w = None).

(** The same room as [standup], asked to start with the microphone
    muted. *)
Definition standupMuted : JitsiMeetProps :=
  {| p_roomName := "standup";
     p_displayName := None;
     p_domain := None;
     p_startWithAudioMuted := Some true;
     p_startWithVideoMuted := None |}.

(** ** The popup observer, lines 244-281 *)

(** One element matched by [".overlay-container, .dialog-container"] in
    the iframe's document, as the callback reads it: its text, the text of
    the buttons inside it in document order, and whether it (still) has a
    parent when line 276 asks. *)
Record Popup : Set := {
  pp_textContent : string;
  pp_buttons : list string;
  pp_parentNode : bool;
}.

(** What the callback does to the page. *)
Inductive DomAction : Set :=
  | Click (popup button : nat)
  | Hide (popup : nat).

(** The test of lines 254-258, under which the popup is skipped. *)
Definition isEssential (p : Popup) : bool :=
  negb (includes (pp_textContent p) "upgrade") &&
  negb (includes (pp_textContent p) "premium") &&
  negb (includes (pp_textContent p) "service").

(** The test of lines 266-270. *)
Definition isDismissButton (t : string) : bool :=
  includes t "Close" || includes t "Cancel" || includes t "Later".

Definition onPopup (i : nat) (p : Popup) : list DomAction :=
  if isEssential p then []
  else
    (concat (imap (fun j t => if isDismissButton t then [Click i j] else [])
               (pp_buttons p))
     ++ (if pp_parentNode p then [Hide i] else []))%list.

(** The observer callback.  [iframeDocument] is [None] when the
    container has no iframe or the iframe's document cannot be reached. *)
Definition observerCallback (iframeDocument : option (list Popup)) : list DomAction :=
  match iframeDocument with
  | Some popups => concat (imap onPopup popups)
  | None => []
  end.

(** A device-permission dialog and a promotion, as the widget may show
    them. *)
Definition permissionDialog : Popup :=
  {| pp_textContent := "Allow access to your microphone";
     pp_buttons := ["Cancel"; "Allow"];
     pp_parentNode := true |}.

Definition promotion : Popup :=
  {| pp_textContent := "Try our premium service";
     pp_buttons := ["Learn more"; "Maybe Later"];
     pp_parentNode := true |}.

(** ** Strings of the host pages *)

(** [String.prototype.trim], modelled from the language: a string is
    taken as a sequence of code units below 256, among which the white
    space and line terminators are TAB, LF, VT, FF, CR, SP and NBSP. *)
Definition isWhiteSpace (a : Ascii.ascii) : bool :=
  let n := Ascii.N_of_ascii a in
  ((9 <=? n)%N && (n <=? 13)%N) || (n =? 32)%N || (n =? 160)%N.

Fixpoint trimStart (s : string) : string :=
  match s with
  | String a s' => if isWhiteSpace a then trimStart s' else s
  | EmptyString => EmptyString
  end.

Fixpoint trimEnd (s : string) : string :=
  match s with
  | String a s' =>
      match trimEnd s' with
      | EmptyString => if isWhiteSpace a then EmptyString else String a EmptyString
      | t => String a t
      end
  | EmptyString => EmptyString
  end.

Definition trim (s : string) : string := trimEnd (trimStart s).

(** Nothing but white space. *)
Fixpoint blank (s : string) : bool :=
  match s with
  | String a s' => isWhiteSpace a && blank s'
  | EmptyString => true
  end.

(** [x || d] for [x] a string or [undefined]. *)
Definition orElse (x : option string) (d : string) : string :=
  match x with
  | Some s => if decide (s = "") then d else s
  | None => d
  end.

(** ** The server's load context, [server.js] lines 29-36 *)

Record Env : Set := {
  JITSI_DOMAIN : option string;
  APP_NAME : option string;
}.

Record LoadContext : Set := {
  env : option Env;
}.

Definition getLoadContext (processEnv : gmap string string) : LoadContext :=
  {| env := Some
       {| JITSI_DOMAIN := Some (orElse (processEnv !! "JITSI_DOMAIN") "meet.jit.si");
          APP_NAME := Some (orElse (processEnv !! "APP_NAME") "Jitsi Wrapper") |} |}.

(** ** The index route *)

Module Index.

(** What the loader returns; [appName] of [LoaderData] is never set. *)
Record LoaderData : Set := {
  defaultRoomName : string;
  jitsiDomain : string;
}.

(** [random] is the value of [Math.floor(Math.random() * 10000)]. *)
Definition loader (context : option LoadContext) (random : nat) : LoaderData :=
  {| defaultRoomName := "room-" ++ pretty random;
     jitsiDomain :=
       orElse
         match context with
         | Some ctx =>
             match env ctx with
             | Some e => JITSI_DOMAIN e
             | None => None
             end
         | None => None
         end
         "meet.jit.si" |}.

Record State : Set := {
  ix_roomName : string;
  ix_displayName : string;
  isInMeeting : bool;
  audioMuted : bool;
  videoMuted : bool;
  customServer : string;
  useCustomServer : bool;
  ix_alerts : list string;
}.

Definition init (d : LoaderData) : State :=
  {| ix_roomName := defaultRoomName d;
     ix_displayName := "Guest";
     isInMeeting := false;
     audioMuted := false;
     videoMuted := false;
     customServer := "";
     useCustomServer := false;
     ix_alerts := [] |}.

Definition handleJoinMeeting (st : State) : State :=
  if decide (trim (ix_roomName st) = "")
  then {| ix_roomName := ix_roomName st; ix_displayName := ix_displayName st;
          isInMeeting := isInMeeting st;
          audioMuted := audioMuted st; videoMuted := videoMuted st;
          customServer := customServer st; useCustomServer := useCustomServer st;
          ix_alerts := (ix_alerts st ++ ["Please enter a room name"])%list |}
  else {| ix_roomName := ix_roomName st; ix_displayName := ix_displayName st;
          isInMeeting := true;
          audioMuted := audioMuted st; videoMuted := videoMuted st;
          customServer := customServer st; useCustomServer := useCustomServer st;
          ix_alerts := ix_alerts st |}.

Definition handleLeaveMeeting (st : State) : State :=
  {| ix_roomName := ix_roomName st; ix_displayName := ix_displayName st;
     isInMeeting := false;
     audioMuted := audioMuted st; videoMuted := videoMuted st;
     customServer := customServer st; useCustomServer := useCustomServer st;
     ix_alerts := ix_alerts st |}.

Definition activeDomain (d : LoaderData) (st : State) : string :=
  if useCustomServer st && negb (bool_decide (trim (customServer st) = ""))
  then trim (customServer st)
  else jitsiDomain d.

(** Pressing "Join Meeting": both text inputs of the form are [required]
    (lines 92 and 109), so the browser submits the form, and
    [handleJoinMeeting] runs, only when neither is empty; otherwise it
    shows its own validation message and nothing reaches the page. *)
Definition submit (st : State) : State :=
  if decide (ix_roomName st = "" \/ ix_displayName st = "")
  then st
  else handleJoinMeeting st.

(** The props of the [JitsiMeetComponent] the page renders, if it
    renders one. *)
Definition meeting (d : LoaderData) (st : State) : option JitsiMeetProps :=
  if isInMeeting st
  then Some {| p_roomName := ix_roomName st;
               p_displayName := Some (ix_displayName st);
               p_domain := Some (activeDomain d st);
               p_startWithAudioMuted := Some (audioMuted st);
               p_startWithVideoMuted := Some (videoMuted st) |}
  else None.

End Index.

(** ** The room route *)

Module Room.

Definition storageKey : string := "jitsi-display-name".

(** The page and the browser's [localStorage]. *)
Record State : Set := {
  roomId : string;
  rm_displayName : string;
  hasJoined : bool;
  localStorage : gmap string string;
  rm_alerts : list string;
}.

(** The first render: [useState("")], [useState(false)]. *)
Definition init (room : string) (storage : gmap string string) : State :=
  {| roomId := room;
     rm_displayName := "";
     hasJoined := false;
     localStorage := storage;
     rm_alerts := [] |}.

Definition setDisplayName (name : string) (st : State) : State :=
  {| roomId := roomId st; rm_displayName := name; hasJoined := hasJoined st;
     localStorage := localStorage st; rm_alerts := rm_alerts st |}.

(** The effect run once after the first render, lines 16-21 of the room
    route. *)
Definition loadStoredName (st : State) : State :=
  match localStorage st !! storageKey with
  | Some storedName =>
      if decide (storedName = "") then st else setDisplayName storedName st
  | None => st
  end.

Definition handleJoinMeeting (st : State) : State :=
  if decide (trim (rm_displayName st) = "")
  then {| roomId := roomId st; rm_displayName := rm_displayName st;
          hasJoined := hasJoined st; localStorage := localStorage st;
          rm_alerts := (rm_alerts st ++ ["Please enter your name"])%list |}
  else {| roomId := roomId st; rm_displayName := rm_displayName st;
          hasJoined := true;
          localStorage := <[storageKey := rm_displayName st]> (localStorage st);
          rm_alerts := rm_alerts st |}.

Definition handleLeaveMeeting (st : State) : State :=
  {| roomId := roomId st; rm_displayName := rm_displayName st;
     hasJoined := false; localStorage := localStorage st;
     rm_alerts := rm_alerts st |}.

(** Pressing "Join Meeting": the name input is [required] (lines 59-66),
    so the browser submits the form, and [handleJoinMeeting] runs, only
    when the name is not empty. *)
Definition submit (st : State) : State :=
  if decide (rm_displayName st = "") then st else handleJoinMeeting st.

(** The props of the [JitsiMeetComponent] the page renders, if it
    renders one. *)
Definition meeting (st : State) : option JitsiMeetProps :=
  if hasJoined st
  then Some {| p_roomName := roomId st;
               p_displayName := Some (rm_displayName st);
               p_domain := Some "meet.jit.si";
               p_startWithAudioMuted := None;
               p_startWithVideoMuted := None |}
  else None.

(** A visit: the first render, its effect, what the visitor types (if
    anything) and the press of "Join Meeting". *)
Definition visit (room : string) (storage : gmap string string)
    (typed : option string) : State :=
  let st := loadStoredName (init room storage) in
  let st := match typed with Some name => setDisplayName name st | None => st end in
  submit st.

End Room.

(** ** Forms of the host pages used as examples *)

(** The index form with a custom server typed with stray spaces. *)
Definition customForm : Index.State :=
  {| Index.ix_roomName := "retro";
     Index.ix_displayName := "Ada";
     Index.isInMeeting := false;
     Index.audioMuted := true;
     Index.videoMuted := false;
     Index.customServer := "  jitsi.example.org ";
     Index.useCustomServer := true;
     Index.ix_alerts := [] |}.

(** The same form with a room name of spaces only. *)
Definition blankRoomForm : Index.State :=
  {| Index.ix_roomName := "   ";
     Index.ix_displayName := "Ada";
     Index.isInMeeting := false;
     Index.audioMuted := true;
     Index.videoMuted := false;
     Index.customServer := "  jitsi.example.org ";
     Index.useCustomServer := true;
     Index.ix_alerts := [] |}.

(** The props the index page derives from [customForm] once joined. *)
Definition customFormProps : JitsiMeetProps :=
  {| p_roomName := "retro";
     p_displayName := Some "Ada";
     p_domain := Some "jitsi.example.org";
     p_startWithAudioMuted := Some true;
     p_startWithVideoMuted := Some false |}.

(** ** One invocation of the reconnect policy *)

(** What an invocation through closure [c] has done to [w] when no
    reconnect was in flight: the flag is up, no widget was touched, and
    either the failure was counted and the effect made due (the retry),
    when the closure saw fewer attempts than the maximum, or [failed] was
    stored and nothing made due. *)
Definition countedOnce (c : Scope) (w w' : Component) : Prop :=
  isReconnectingRef w' = true /\
  instances w' = instances w /\
  jitsiApiRef w' = jitsiApiRef w /\
  (attemptsSeen c < MAX_RECONNECT_ATTEMPTS ->
   connectionStatus w' = Reconnecting /\
   reconnectAttempts w' = reconnectAttempts w + 1 /\
   (effectPending w = false -> effectPending w' = true)) /\
  (MAX_RECONNECT_ATTEMPTS <= attemptsSeen c ->
   connectionStatus w' = Failed /\
   reconnectAttempts w' = reconnectAttempts w /\
   effectPending w' = effectPending w).

(** The widget events whose listener calls [handleConnectionIssue]. *)
Definition invokesPolicy (e : WidgetEvent) : bool :=
  match e with
  | ConnectionFailed | SuspendDetected => true
  | ErrorOccurred payload => isServiceError payload
  | _ => false
  end.

(** The closure was created in a render that saw the current counter. *)
Definition upToDate (c : Scope) (w : Component) : bool :=
  bool_decide (reconnectAttempts w <= attemptsSeen c).

(** The event makes a callback of an earlier render invoke the policy
    while no reconnect is in flight: a failure listener of a widget, or a
    monitor whose probe throws, created when the counter was smaller. *)
Definition staleFailure (ev : Event) (w : Component) : bool :=
  negb (isReconnectingRef w) &&
  match ev with
  | Widget api e =>
      match instances w !! api with
      | Some i => invokesPolicy e && negb (upToDate (i_listeners i) w)
      | None => false
      end
  | Tick tid attached probeThrows =>
      match intervals w !! tid with
      | Some c =>
          bool_decide (is_Some (jitsiApiRef w)) && attached && probeThrows
          && negb (upToDate c w)
      | None => false
      end
  | _ => false
  end.

(** No event of the run is a stale failure in the state it arrives in. *)
Fixpoint noStaleFailure (evs : list Event) (w : Component) : bool :=
  match evs with
  | [] => true
  | ev :: evs => negb (staleFailure ev w) && noStaleFailure evs (step ev w)
  end.

(** Five failures reported by the widget then in the ref, the fourth and
    fifth after the policy has given up, with a healthy tick of the first
    monitor and a change of room in between. *)
Definition freshFailuresRun : list Event :=
  [Render false;
   Widget 0 ConnectionFailed; Render false;
   Tick 0 true false;
   Widget 1 ConnectionFailed; Render false;
   Widget 2 ConnectionFailed; Widget 2 SuspendDetected; Render false;
   Widget 3 ConnectionFailed; Render false;
   SetProps otherRoom; Render false;
   Widget 4 ConnectionFailed; Render false].

(** The room form with a name of spaces typed in. *)
Definition spacesTyped : Room.State :=
  Room.setDisplayName "   " (Room.loadStoredName (Room.init "retro" ∅)).

(** * Properties *)

(** ** Reachability *)

Lemma reachable_run evs w : reachable w -> reachable (run evs w).
Proof.
  revert w. induction evs as [|ev evs IH]; intros w Hw; simpl.
  - exact Hw.
  - apply IH. now constructor.
Qed.

Lemma run_app evs1 evs2 w : run (evs1 ++ evs2) w = run evs2 (run evs1 w).
Proof. unfold run. apply foldl_app. Qed.

(** ** The reconnect policy *)

(** Case analysis on one call of [handleConnectionIssue c w]: flag
    raised or not, component mounted or not, attempts left or not. *)
Ltac policy_cases w :=
  unfold handleConnectionIssue, setReconnectAttempts, setConnectionStatus;
  let F := fresh "F" in
  let M := fresh "M" in
  destruct (isReconnectingRef w) eqn:F;
  [ | destruct (mounted w) eqn:M; simpl; rewrite ?M; simpl;
      case_decide; simpl; rewrite ?M; simpl ].

Section Policy.

Variables (c : Scope) (w : Component).

Lemma handleConnectionIssue_in_flight :
  isReconnectingRef w = true -> handleConnectionIssue c w = w.
Proof. intros H. unfold handleConnectionIssue. now rewrite H. Qed.

Lemma handleConnectionIssue_raises_flag :
  isReconnectingRef (handleConnectionIssue c w) = true.
Proof. policy_cases w; congruence. Qed.

Lemma handleConnectionIssue_counter :
  reconnectAttempts (handleConnectionIssue c w) = reconnectAttempts w \/
  reconnectAttempts (handleConnectionIssue c w) = reconnectAttempts w + 1.
Proof. policy_cases w; auto. Qed.

Lemma handleConnectionIssue_instances :
  instances (handleConnectionIssue c w) = instances w.
Proof. policy_cases w; reflexivity. Qed.

Lemma handleConnectionIssue_mounted :
  mounted (handleConnectionIssue c w) = mounted w.
Proof. policy_cases w; congruence. Qed.

End Policy.

(** ** [failed] implies a raised in-flight flag *)

Lemma handleConnectionIssue_failed_in_flight c w :
  failed_in_flight (handleConnectionIssue c w).
Proof. intros _ _. apply handleConnectionIssue_raises_flag. Qed.

Lemma initializeJitsi_failed_in_flight c b w :
  failed_in_flight w -> failed_in_flight (initializeJitsi c b w).
Proof.
  unfold failed_in_flight, initializeJitsi, setConnectionStatus, setInterval, dispose.
  intros I.
  destruct (JitsiMeetExternalAPI w); simpl.
  - destruct (jitsiApiRef w), b, (mounted w) eqn:M; simpl; try congruence;
      rewrite ?M; simpl; congruence.
  - destruct (mounted w) eqn:M; simpl; congruence.
Qed.

Lemma runCleanup_failed_in_flight k w :
  failed_in_flight w -> failed_in_flight (runCleanup k w).
Proof.
  unfold failed_in_flight. intros I.
  destruct k as [sid|]; simpl.
  - destruct (scripts w !! sid) as [s|]; [destruct (s_inBody s)|]; exact I.
  - destruct (jitsiApiRef w); exact I.
Qed.

Lemma runEffect_failed_in_flight c b w :
  failed_in_flight w -> failed_in_flight (runEffect c b w).
Proof.
  intros I. unfold runEffect, effectBody.
  destruct (JitsiMeetExternalAPI w); simpl.
  - apply (initializeJitsi_failed_in_flight c b) in I. exact I.
  - exact I.
Qed.

Lemma step_failed_in_flight ev w :
  failed_in_flight w -> failed_in_flight (step ev w).
Proof.
  intros I. destruct ev as [b|p| |sid d b|sid|api e|tid a t]; simpl.
  - unfold commit. destruct (mounted w); [|exact I].
    destruct (lastEffect w) as [[d k]|].
    + case_decide; [exact I|].
      now apply runEffect_failed_in_flight, runCleanup_failed_in_flight.
    + now apply runEffect_failed_in_flight.
  - destruct (mounted w); exact I.
  - unfold unmount. destruct (mounted w) eqn:M; [|exact I].
    intros M'. simpl in M'. discriminate.
  - destruct (scripts w !! sid) as [s|]; [|exact I].
    destruct (s_pending s); [|exact I].
    apply initializeJitsi_failed_in_flight. exact I.
  - destruct (scripts w !! sid) as [s|]; [|exact I].
    destruct (s_pending s); [|exact I].
    unfold handleScriptError, setConnectionStatus, settle, failed_in_flight.
    simpl. destruct (mounted w) eqn:M; simpl; congruence.
  - destruct (instances w !! api) as [i|]; [|exact I].
    destruct e; simpl;
      try (unfold handleClose, handleVideoConferenceJoined,
             handleVideoConferenceLeft, connectionEstablished,
             setConnectionStatus, failed_in_flight;
           destruct (mounted w) eqn:M; simpl; congruence);
      try apply handleConnectionIssue_failed_in_flight.
    unfold handleErrorOccurred. destruct (isServiceError payload); [|exact I].
    apply handleConnectionIssue_failed_in_flight.
  - destruct (intervals w !! tid) as [c|]; [|exact I].
    unfold connectionMonitor.
    destruct (negb (bool_decide (is_Some (jitsiApiRef w))) || negb a); [exact I|].
    destruct t; [|exact I].
    intros _ _. simpl. apply handleConnectionIssue_raises_flag.
Qed.

Lemma reachable_failed_in_flight w : reachable w -> failed_in_flight w.
Proof.
  induction 1 as [p l|ev w _ IH].
  - intros _ H. discriminate H.
  - now apply step_failed_in_flight.
Qed.

(** Once [failed], the policy is inert: every further invocation, through
    whichever closure, returns the state it was given. *)
Lemma failed_is_inert w c :
  reachable w -> mounted w = true -> connectionStatus w = Failed ->
  handleConnectionIssue c w = w.
Proof.
  intros R M F. apply handleConnectionIssue_in_flight.
  now apply reachable_failed_in_flight.
Qed.

(** ** C1: [connectionEstablished] and the counter *)

(** C1, as stated, fails: in a reachable state whose counter is 1 the
    [connectionEstablished] listener of the current widget leaves the
    status [connected] and the counter at 1, not 0. *)
Lemma connectionEstablished_resets_counter_cex :
  reachable afterOneReconnect /\
  1 <= reconnectAttempts afterOneReconnect /\
  jitsiApiRef afterOneReconnect = Some 1 /\
  connectionStatus (step (Widget 1 ConnectionEstablished) afterOneReconnect) = Connected /\
  reconnectAttempts (step (Widget 1 ConnectionEstablished) afterOneReconnect) = 1 /\
  reconnectAttempts (step (Widget 1 ConnectionEstablished) afterOneReconnect) <> 0.
Proof.
  split; [apply reachable_run; constructor|].
  vm_compute. repeat split; try lia; discriminate.
Qed.

(** C1 (amended): in every state of a mounted component, whatever the
    counter, a [connectionEstablished] event delivered by a constructed
    widget makes the status [connected] and leaves the counter (and the
    in-flight flag, the handle and the widgets) as they were. *)
Theorem connectionEstablished_keeps_counter (w : Component) (api : nat) :
  mounted w = true ->
  is_Some (instances w !! api) ->
  let w' := step (Widget api ConnectionEstablished) w in
  connectionStatus w' = Connected /\
  reconnectAttempts w' = reconnectAttempts w /\
  w' = with_connectionStatus Connected w.
Proof.
  intros M [i Hi]. simpl. rewrite Hi. simpl.
  unfold connectionEstablished, setConnectionStatus. rewrite M.
  repeat split.
Qed.

Lemma connectionEstablished_keeps_counter_witness :
  mounted afterOneReconnect = true /\
  is_Some (instances afterOneReconnect !! 1) /\
  connectionStatus (step (Widget 1 ConnectionEstablished) afterOneReconnect) = Connected /\
  reconnectAttempts (step (Widget 1 ConnectionEstablished) afterOneReconnect) = 1.
Proof.
  assert (M : mounted afterOneReconnect = true) by (vm_compute; reflexivity).
  assert (I : is_Some (instances afterOneReconnect !! 1))
    by (vm_compute; eexists; reflexivity).
  destruct (connectionEstablished_keeps_counter afterOneReconnect 1 M I)
    as (S & N & _).
  refine (conj M (conj I (conj S _))).
  rewrite N. vm_compute. reflexivity.
Defined.

(** ** C7: the policy is idempotent *)

Lemma callback_counter ev w :
  isCallback ev = true ->
  (reconnectAttempts (step ev w) = reconnectAttempts w /\
   (isReconnectingRef w = true -> isReconnectingRef (step ev w) = true)) \/
  (isReconnectingRef w = false /\
   reconnectAttempts (step ev w) = reconnectAttempts w + 1 /\
   isReconnectingRef (step ev w) = true).
Proof.
  assert (P : forall c,
    (reconnectAttempts (handleConnectionIssue c w) = reconnectAttempts w /\
     (isReconnectingRef w = true ->
      isReconnectingRef (handleConnectionIssue c w) = true)) \/
    (isReconnectingRef w = false /\
     reconnectAttempts (handleConnectionIssue c w) = reconnectAttempts w + 1 /\
     isReconnectingRef (handleConnectionIssue c w) = true)).
  { intros c. policy_cases w; auto. }
  assert (S : forall s,
    reconnectAttempts (setConnectionStatus s w) = reconnectAttempts w /\
    (isReconnectingRef w = true ->
     isReconnectingRef (setConnectionStatus s w) = true)).
  { intros s. unfold setConnectionStatus. destruct (mounted w); auto. }
  destruct ev as [b|p| |sid d b|sid|api e|tid a t]; simpl; try discriminate; intros _.
  - destruct (scripts w !! sid) as [s|]; [|auto].
    destruct (s_pending s); [|auto]. left.
    unfold handleScriptError, setConnectionStatus, settle. simpl.
    destruct (mounted w); auto.
  - destruct (instances w !! api) as [i|]; [|auto].
    destruct e; simpl; auto; try (left; apply S).
    unfold handleErrorOccurred. destruct (isServiceError payload); auto.
  - destruct (intervals w !! tid) as [c|]; [|auto].
    unfold connectionMonitor.
    destruct (negb (bool_decide (is_Some (jitsiApiRef w))) || negb a); [auto|].
    destruct t; [|auto]. simpl. apply P.
Qed.

Lemma callbacks_in_flight evs w :
  forallb isCallback evs = true ->
  isReconnectingRef w = true ->
  reconnectAttempts (run evs w) = reconnectAttempts w.
Proof.
  revert w. induction evs as [|ev evs IH]; intros w Hc F; simpl; [reflexivity|].
  simpl in Hc. apply andb_true_iff in Hc as [Hev Hc].
  destruct (callback_counter ev w Hev) as [[E K]|[K _]]; [|congruence].
  rewrite IH; auto.
Qed.

(** C7: a second invocation of the reconnect policy, from any closure,
    returns the state the first one produced, so two invocations count one
    failure and set the status once; and however many listener, monitor and
    script-error callbacks run before React commits again (a monitor tick
    whose probe throws and a [connectionFailed] event among them), the
    counter goes up by at most one. *)
Theorem handleConnectionIssue_idempotent (c1 c2 : Scope) (w : Component) (evs : list Event) :
  handleConnectionIssue c2 (handleConnectionIssue c1 w) = handleConnectionIssue c1 w /\
  reconnectAttempts (handleConnectionIssue c2 (handleConnectionIssue c1 w))
    <= reconnectAttempts w + 1 /\
  (forallb isCallback evs = true ->
   reconnectAttempts (run evs w) <= reconnectAttempts w + 1).
Proof.
  assert (E : handleConnectionIssue c2 (handleConnectionIssue c1 w)
              = handleConnectionIssue c1 w)
    by apply handleConnectionIssue_in_flight, handleConnectionIssue_raises_flag.
  split; [exact E|]. split.
  - rewrite E. destruct (handleConnectionIssue_counter c1 w); lia.
  - clear E. revert w. induction evs as [|ev evs IH]; intros w Hc; simpl; [lia|].
    simpl in Hc. apply andb_true_iff in Hc as [Hev Hc].
    destruct (callback_counter ev w Hev) as [[E _]|(_ & E & F)].
    + specialize (IH (step ev w) Hc). fold (run evs (step ev w)). lia.
    + fold (run evs (step ev w)). rewrite callbacks_in_flight; auto. lia.
Qed.

(** Scenario E on the connected component of [afterOneReconnect]: the
    monitor's probe throws and [connectionFailed] arrives before React
    commits; in either order the counter goes from 1 to 2, once. *)
Lemma handleConnectionIssue_idempotent_witness :
  forallb isCallback [Tick 1 true true; Widget 1 ConnectionFailed] = true /\
  reconnectAttempts (run [Tick 1 true true; Widget 1 ConnectionFailed] afterOneReconnect)
    <= reconnectAttempts afterOneReconnect + 1 /\
  reconnectAttempts (run [Tick 1 true true; Widget 1 ConnectionFailed] afterOneReconnect) = 2 /\
  reconnectAttempts (run [Widget 1 ConnectionFailed; Tick 1 true true] afterOneReconnect) = 2.
Proof.
  split; [reflexivity|]. split.
  - apply (handleConnectionIssue_idempotent
             (destructure standup 0) (destructure standup 0) afterOneReconnect
             [Tick 1 true true; Widget 1 ConnectionFailed]).
    reflexivity.
  - split; vm_compute; reflexivity.
Defined.

(** ** C8: which failures retry *)

Lemma commit_not_pending b w : effectPending w = false -> commit b w = w.
Proof.
  unfold effectPending, commit. destruct (mounted w); [simpl|reflexivity].
  destruct (lastEffect w) as [[d k]|]; [|discriminate].
  intros H. apply negb_false_iff, bool_decide_eq_true in H.
  now rewrite decide_True.
Qed.

Lemma initializeJitsi_effectPending c t w :
  effectPending (initializeJitsi c t w) = effectPending w.
Proof.
  unfold effectPending, initializeJitsi, setConnectionStatus, setInterval, dispose.
  destruct (JitsiMeetExternalAPI w); simpl.
  - destruct (jitsiApiRef w), t, (mounted w) eqn:M; simpl; rewrite ?M; simpl;
      rewrite ?M; reflexivity.
  - destruct (mounted w) eqn:M; simpl; rewrite ?M; reflexivity.
Qed.

(** The policy, when it counts a failure, is what makes the effect run
    again. *)
Lemma handleConnectionIssue_effectPending c w :
  mounted w = true -> isReconnectingRef w = false ->
  attemptsSeen c < MAX_RECONNECT_ATTEMPTS ->
  effectPending w = false ->
  effectPending (handleConnectionIssue c w) = true.
Proof.
  intros M F A P.
  assert (D : exists k, lastEffect w =
      Some (depsOf (destructure (props w) (reconnectAttempts w)), k)).
  { unfold effectPending in P. rewrite M in P. simpl in P.
    destruct (lastEffect w) as [[d k]|]; [|discriminate].
    apply negb_false_iff, bool_decide_eq_true in P. subst d. now exists k. }
  destruct D as [k D].
  unfold effectPending, handleConnectionIssue, setReconnectAttempts,
    setConnectionStatus.
  rewrite F. simpl. rewrite ?M. simpl. rewrite decide_True by exact A. simpl.
  rewrite ?M, ?D. simpl. rewrite ?M, ?D. simpl.
  apply negb_true_iff, bool_decide_eq_false.
  unfold depsOf, destructure. simpl. intros E. injection E. lia.
Qed.

Lemma handleConnectionIssue_countedOnce c w :
  mounted w = true -> isReconnectingRef w = false ->
  countedOnce c w (handleConnectionIssue c w).
Proof.
  intros M F. unfold countedOnce.
  rewrite handleConnectionIssue_raises_flag, handleConnectionIssue_instances.
  split; [reflexivity|]. split; [reflexivity|]. split; [|split].
  - unfold handleConnectionIssue, setReconnectAttempts, setConnectionStatus.
    rewrite F. simpl. rewrite M. simpl. rewrite M. now case_decide.
  - intros A. split; [|split].
    + unfold handleConnectionIssue, setReconnectAttempts, setConnectionStatus.
      rewrite F. simpl. rewrite M. simpl. rewrite M.
      now rewrite decide_True by exact A.
    + unfold handleConnectionIssue, setReconnectAttempts, setConnectionStatus.
      rewrite F. simpl. rewrite M. simpl. rewrite M.
      now rewrite decide_True by exact A.
    + now apply handleConnectionIssue_effectPending.
  - intros A.
    unfold handleConnectionIssue, setReconnectAttempts, setConnectionStatus,
      effectPending.
    rewrite F. simpl. rewrite M. simpl. rewrite M.
    rewrite decide_False by lia. simpl. rewrite M. repeat split.
Qed.

Lemma clearInterval_countedOnce tid c w w' :
  countedOnce c w w' -> countedOnce c w (clearInterval tid w').
Proof. unfold countedOnce, effectPending. simpl. auto. Qed.

(** C8: the code on the general state and at the failing input.  A script
    load failure and a construction failure store [error], touch neither
    the counter nor the in-flight flag and make no effect due (no retry).
    With no reconnect in flight, [connectionFailed], [suspendDetected], an
    [errorOccurred] whose payload mentions "service" or "limit", and a
    throwing probe each raise the flag and, when the invoking callback's
    render saw fewer than the maximum of attempts, count the failure and
    make the effect due (the retry); otherwise they store [failed] and
    retry nothing; with a reconnect in flight they count nothing.  At the
    failing input the counter is 3 and the widget in the ref reports a
    failure: [failed], counter 3, no effect due; but the probe of the
    monitor left over from the first render, throwing in the same state, is
    counted as a fourth failure and retried with a fifth widget, because
    its closure saw 0: on that path the policy is not bounded. *)
Theorem error_taxonomy (c : Scope) (w : Component) (tid : nat) (payload : option string) :
  (mounted w = true ->
   (handleScriptError w = with_connectionStatus Error w /\
    connectionStatus (handleScriptError w) = Error /\
    reconnectAttempts (handleScriptError w) = reconnectAttempts w /\
    isReconnectingRef (handleScriptError w) = isReconnectingRef w /\
    effectPending (handleScriptError w) = effectPending w) /\
   (JitsiMeetExternalAPI w = true ->
    connectionStatus (initializeJitsi c true w) = Error /\
    reconnectAttempts (initializeJitsi c true w) = reconnectAttempts w /\
    isReconnectingRef (initializeJitsi c true w) = isReconnectingRef w /\
    instances (initializeJitsi c true w) = instances w /\
    jitsiApiRef (initializeJitsi c true w) = None /\
    effectPending (initializeJitsi c true w) = effectPending w) /\
   (isReconnectingRef w = false ->
    countedOnce c w (listener c ConnectionFailed w) /\
    countedOnce c w (listener c SuspendDetected w) /\
    (isServiceError payload = true ->
     countedOnce c w (listener c (ErrorOccurred payload) w)) /\
    (is_Some (jitsiApiRef w) ->
     countedOnce c w (connectionMonitor tid c true true w) /\
     intervals (connectionMonitor tid c true true w) !! tid = None)) /\
   (isReconnectingRef w = true ->
    listener c ConnectionFailed w = w /\
    listener c SuspendDetected w = w /\
    listener c (ErrorOccurred payload) w = w /\
    reconnectAttempts (connectionMonitor tid c true true w) = reconnectAttempts w /\
    connectionStatus (connectionMonitor tid c true true w) = connectionStatus w)) /\
  (reconnectAttempts (run (take 7 staleMonitorRun) (mount standup true)) = 3 /\
   jitsiApiRef (run (take 7 staleMonitorRun) (mount standup true)) = Some 3 /\
   isReconnectingRef (run (take 7 staleMonitorRun) (mount standup true)) = false /\
   (attemptsSeen ∘ i_listeners)
     <$> instances (run (take 7 staleMonitorRun) (mount standup true)) !! 3
     = Some 3 /\
   attemptsSeen <$> intervals (run (take 7 staleMonitorRun) (mount standup true)) !! 0
     = Some 0 /\
   connectionStatus
     (run (take 7 staleMonitorRun ++ [Widget 3 ConnectionFailed; Render false])
        (mount standup true)) = Failed /\
   reconnectAttempts
     (run (take 7 staleMonitorRun ++ [Widget 3 ConnectionFailed; Render false])
        (mount standup true)) = 3 /\
   length (instances
     (run (take 7 staleMonitorRun ++ [Widget 3 ConnectionFailed; Render false])
        (mount standup true))) = 4 /\
   connectionStatus
     (run (take 7 staleMonitorRun ++ [Tick 0 true true])
        (mount standup true)) = Reconnecting /\
   reconnectAttempts
     (run (take 7 staleMonitorRun ++ [Tick 0 true true; Render false])
        (mount standup true)) = 4 /\
   MAX_RECONNECT_ATTEMPTS
     < reconnectAttempts
         (run (take 7 staleMonitorRun ++ [Tick 0 true true; Render false])
            (mount standup true)) /\
   length (instances
     (run (take 7 staleMonitorRun ++ [Tick 0 true true; Render false])
        (mount standup true))) = 5).
Proof.
  split; [|vm_compute; repeat split; lia].
  intros M. split; [|split; [|split]].
  - unfold handleScriptError, setConnectionStatus, effectPending. rewrite M.
    simpl. rewrite M. repeat split.
  - intros A. rewrite initializeJitsi_effectPending.
    unfold initializeJitsi, setConnectionStatus, dispose. rewrite A. simpl.
    destruct (jitsiApiRef w) eqn:R; simpl; rewrite ?M; simpl; rewrite ?M, ?R;
      repeat split.
  - intros F.
    pose proof (handleConnectionIssue_countedOnce c w M F) as K.
    split; [exact K|]. split; [exact K|]. split.
    + intros S. simpl. unfold handleErrorOccurred. rewrite S. exact K.
    + intros [h Hh]. unfold connectionMonitor. rewrite Hh. simpl. split.
      * now apply clearInterval_countedOnce.
      * apply lookup_delete_eq.
  - intros F.
    pose proof (handleConnectionIssue_in_flight c w F) as K.
    simpl. unfold handleConnectionFailure, handleSuspendDetected,
      handleErrorOccurred, connectionMonitor.
    rewrite K.
    split; [reflexivity|]. split; [reflexivity|].
    split; [now destruct (isServiceError payload)|].
    destruct (negb (bool_decide (is_Some (jitsiApiRef w))) || negb true);
      split; reflexivity.
Qed.

Lemma error_taxonomy_witness :
  mounted afterOneReconnect = true /\
  JitsiMeetExternalAPI afterOneReconnect = true /\
  isReconnectingRef afterOneReconnect = false /\
  isServiceError (Some "rate limit exceeded") = true /\
  is_Some (jitsiApiRef afterOneReconnect) /\
  connectionStatus (handleScriptError afterOneReconnect) = Error /\
  connectionStatus (initializeJitsi (destructure standup 1) true afterOneReconnect) = Error /\
  countedOnce (destructure standup 1) afterOneReconnect
    (listener (destructure standup 1) (ErrorOccurred (Some "rate limit exceeded"))
       afterOneReconnect) /\
  countedOnce (destructure standup 1) afterOneReconnect
    (connectionMonitor 1 (destructure standup 1) true true afterOneReconnect) /\
  reconnectAttempts
    (connectionMonitor 1 (destructure standup 1) true true afterOneReconnect) = 2.
Proof.
  assert (M : mounted afterOneReconnect = true) by (vm_compute; reflexivity).
  assert (A : JitsiMeetExternalAPI afterOneReconnect = true)
    by (vm_compute; reflexivity).
  assert (F : isReconnectingRef afterOneReconnect = false)
    by (vm_compute; reflexivity).
  assert (S : isServiceError (Some "rate limit exceeded") = true)
    by (vm_compute; reflexivity).
  assert (R : is_Some (jitsiApiRef afterOneReconnect))
    by (vm_compute; eexists; reflexivity).
  destruct (error_taxonomy (destructure standup 1) afterOneReconnect 1
              (Some "rate limit exceeded")) as (G & _).
  destruct (G M) as ((_ & E1 & _) & T & P & _).
  destruct (T A) as (E2 & _).
  destruct (P F) as (_ & _ & L & K).
  destruct (K R) as (K1 & _).
  refine (conj M (conj A (conj F (conj S (conj R (conj E1 (conj E2
            (conj (L S) (conj K1 _))))))))).
  vm_compute. reflexivity.
Defined.

(** ** C6: the liveness probe *)

(** C6, as stated, fails: with a live handle and the container detached
    from the document, the tick clears its interval and returns; the
    policy does not run (the status stays [connected] instead of turning
    [reconnecting], the flag stays down). *)
Lemma monitor_detached_cex :
  let w := run [Render false] (mount standup true) in
  let c := destructure standup 0 in
  jitsiApiRef w = Some 0 /\
  intervals w !! 0 = Some c /\
  step (Tick 0 false false) w = clearInterval 0 w /\
  connectionStatus (step (Tick 0 false false) w) = Connected /\
  isReconnectingRef (step (Tick 0 false false) w) = false /\
  connectionStatus (clearInterval 0 (handleConnectionIssue c w)) = Reconnecting /\
  step (Tick 0 false false) w <> clearInterval 0 (handleConnectionIssue c w).
Proof.
  intros w c. repeat (split; [vm_compute; reflexivity|]).
  intros H. apply (f_equal connectionStatus) in H. vm_compute in H. discriminate H.
Qed.

(** C6 (amended): a tick of a live monitor whose probe throws, with a
    handle in the ref and the container attached, invokes the policy and
    then clears its own interval; a tick that finds the container detached
    (or no handle in the ref) only clears its own interval, without
    invoking the policy; a tick whose probe succeeds changes nothing. *)
Theorem connectionMonitor_cases (w : Component) (tid : nat) (c : Scope) :
  intervals w !! tid = Some c ->
  (is_Some (jitsiApiRef w) ->
   step (Tick tid true true) w = clearInterval tid (handleConnectionIssue c w) /\
   intervals (step (Tick tid true true) w) !! tid = None /\
   step (Tick tid true false) w = w) /\
  (forall t, step (Tick tid false t) w = clearInterval tid w /\
             intervals (step (Tick tid false t) w) !! tid = None /\
             connectionStatus (step (Tick tid false t) w) = connectionStatus w /\
             reconnectAttempts (step (Tick tid false t) w) = reconnectAttempts w /\
             isReconnectingRef (step (Tick tid false t) w) = isReconnectingRef w) /\
  (jitsiApiRef w = None ->
   forall a t, step (Tick tid a t) w = clearInterval tid w).
Proof.
  intros Hc. simpl. rewrite Hc. unfold connectionMonitor. split; [|split].
  - intros [h Hh]. rewrite Hh. simpl. split; [reflexivity|]. split; [|reflexivity].
    apply lookup_delete_eq.
  - intros t. rewrite orb_true_r. simpl. repeat split. apply lookup_delete_eq.
  - intros N a t. now rewrite N.
Qed.

Lemma connectionMonitor_cases_witness :
  intervals afterOneReconnect !! 1 = Some (destructure standup 1) /\
  is_Some (jitsiApiRef afterOneReconnect) /\
  step (Tick 1 true true) afterOneReconnect
    = clearInterval 1 (handleConnectionIssue (destructure standup 1) afterOneReconnect) /\
  step (Tick 1 false true) afterOneReconnect = clearInterval 1 afterOneReconnect /\
  connectionStatus (step (Tick 1 true true) afterOneReconnect) = Reconnecting /\
  connectionStatus (step (Tick 1 false true) afterOneReconnect) = Connected.
Proof.
  assert (I : intervals afterOneReconnect !! 1 = Some (destructure standup 1))
    by (vm_compute; reflexivity).
  assert (R : is_Some (jitsiApiRef afterOneReconnect))
    by (vm_compute; eexists; reflexivity).
  destruct (connectionMonitor_cases afterOneReconnect 1 (destructure standup 1) I)
    as (T & D & _).
  destruct (T R) as (E & _).
  destruct (D true) as (E' & _).
  refine (conj I (conj R (conj E (conj E' (conj _ _))))); vm_compute; reflexivity.
Defined.

(** ** C5: what [start] stores *)

(** C5, as stated, fails: once the constructor has returned the status is
    [connected], whether the effect finds the library on the page or the
    script's [onload] runs [initializeJitsi]; no event has been delivered
    by the widget at that point. *)
Lemma start_connecting_cex :
  connectionStatus (mount standup true) = Connecting /\
  connectionStatus (run [Render false] (mount standup true)) = Connected /\
  connectionStatus (run [Render false] (mount standup true)) <> Connecting /\
  connectionStatus (run [Render false] (mount standup false)) = Connecting /\
  connectionStatus (run [Render false; ScriptOnload 0 true false] (mount standup false))
    = Connected /\
  length (instances (run [Render false; ScriptOnload 0 true false] (mount standup false))) = 1.
Proof. vm_compute. repeat split; discriminate. Qed.

(** C5 (amended): [initializeJitsi] on a mounted component stores
    [connected] as soon as the constructor has returned, and puts the new
    handle, built from the closure's domain and options, in the ref; it
    stores [error] exactly when the library is missing or the constructor
    throws; [handleScriptError] stores [error]; the
    [connectionEstablished] and [videoConferenceJoined] listeners store
    [connected] again. *)
Theorem initializeJitsi_status (c : Scope) (ctorThrows : bool) (w : Component) :
  mounted w = true ->
  (JitsiMeetExternalAPI w = true -> ctorThrows = false ->
   connectionStatus (initializeJitsi c ctorThrows w) = Connected /\
   jitsiApiRef (initializeJitsi c ctorThrows w) = Some (length (instances w)) /\
   instances (initializeJitsi c ctorThrows w)
     = (instances w ++ [{| i_domain := domain c; i_options := options c;
                           i_listeners := c |}])%list) /\
  (connectionStatus (initializeJitsi c ctorThrows w) = Error <->
   JitsiMeetExternalAPI w = false \/ ctorThrows = true) /\
  connectionStatus (handleScriptError w) = Error /\
  connectionStatus (listener c ConnectionEstablished w) = Connected /\
  connectionStatus (listener c VideoConferenceJoined w) = Connected.
Proof.
  intros M.
  assert (S : forall s, connectionStatus (setConnectionStatus s w) = s).
  { intros s. unfold setConnectionStatus. now rewrite M. }
  split; [|split; [|split; [|split]]]; try apply S.
  - intros A T. subst ctorThrows.
    unfold initializeJitsi, setConnectionStatus, setInterval, dispose.
    rewrite A. simpl.
    destruct (jitsiApiRef w); simpl; rewrite ?M; simpl; repeat split.
  - unfold initializeJitsi, setConnectionStatus, setInterval, dispose.
    destruct (JitsiMeetExternalAPI w); simpl.
    + destruct (jitsiApiRef w), ctorThrows; simpl; rewrite ?M; simpl;
        (split; [intros H; (discriminate H || now right) | reflexivity || (intros [H|H]; discriminate H)]).
    + rewrite M. simpl. split; [now left|reflexivity].
Qed.

Lemma initializeJitsi_status_witness :
  mounted (mount standup true) = true /\
  JitsiMeetExternalAPI (mount standup true) = true /\
  connectionStatus (initializeJitsi (destructure standup 0) false (mount standup true))
    = Connected /\
  jitsiApiRef (initializeJitsi (destructure standup 0) false (mount standup true))
    = Some 0 /\
  connectionStatus (initializeJitsi (destructure standup 0) true (mount standup true))
    = Error.
Proof.
  assert (M : mounted (mount standup true) = true) by reflexivity.
  assert (A : JitsiMeetExternalAPI (mount standup true) = true) by reflexivity.
  destruct (initializeJitsi_status (destructure standup 0) false (mount standup true) M)
    as (T & _).
  destruct (T A eq_refl) as (S & R & _).
  destruct (initializeJitsi_status (destructure standup 0) true (mount standup true) M)
    as (_ & E & _).
  exact (conj M (conj A (conj S (conj R (proj2 E (or_intror eq_refl)))))).
Defined.

(** ** C9: the view *)

(** C9, as stated, fails: for [left] and for [closed] the switch of
    [renderConnectionStatus] falls to [default] and returns [null]; the
    only child rendered is the mount element. *)
Lemma view_status_line_cex :
  Left <> Connected /\ Closed <> Connected /\
  (forall n, renderConnectionStatus Left n = None) /\
  (forall n, renderConnectionStatus Closed n = None) /\
  (forall n, view Left n = [MountDiv (mountElement Left)]) /\
  (forall n, view Closed n = [MountDiv (mountElement Closed)]) /\
  (forall n line, ~ In (StatusDiv line) (view Left n)) /\
  (forall n line, ~ In (StatusDiv line) (view Closed n)).
Proof.
  repeat split; try discriminate; intros n line [H|[]]; discriminate H.
Qed.

(** C9 (amended): for [connecting], [reconnecting], [error] and [failed]
    the component renders a status line followed by the mount element; for
    [connected], [left] and [closed] it renders the mount element alone;
    the mount element is the last child in every state. *)
Theorem view_children (s : ConnectionStatus) (attempts : nat) :
  match s with
  | Connecting | Reconnecting | Error | Failed =>
      exists line,
        renderConnectionStatus s attempts = Some line /\
        sl_text line <> "" /\
        view s attempts = [StatusDiv line; MountDiv (mountElement s)]
  | Connected | Left | Closed =>
      view s attempts = [MountDiv (mountElement s)]
  end /\
  last (view s attempts) = Some (MountDiv (mountElement s)).
Proof.
  destruct s; (split; [|reflexivity]); try reflexivity;
    eexists; (split; [reflexivity|]); (split; [|reflexivity]);
    simpl; discriminate.
Qed.

(** ** C10: defaults *)

(** C10: given a room name and nothing else, the closures of the
    component see displayName "User", domain "meet.jit.si" and both mute
    flags false, and the widget constructed by the first run of the effect
    is built with exactly these (the script, when the library has to be
    loaded first, comes from that domain). *)
Theorem roomName_only_defaults (r : string) :
  let c := destructure (onlyRoomName r) 0 in
  displayName c = "User" /\
  domain c = "meet.jit.si" /\
  startWithAudioMuted c = false /\
  startWithVideoMuted c = false /\
  roomName c = r /\
  (forall i,
     instances (run [Render false] (mount (onlyRoomName r) true)) !! 0 = Some i ->
     i_domain i = "meet.jit.si" /\
     o_roomName (i_options i) = r /\
     userInfo_displayName (i_options i) = "User" /\
     co_startWithAudioMuted (configOverwrite (i_options i)) = false /\
     co_startWithVideoMuted (configOverwrite (i_options i)) = false) /\
  instances (run [Render false] (mount (onlyRoomName r) true))
    = [{| i_domain := "meet.jit.si"; i_options := options c; i_listeners := c |}] /\
  s_src <$> scripts (run [Render false] (mount (onlyRoomName r) false))
    = ["https://meet.jit.si/external_api.js"] /\
  instances (run [Render false; ScriptOnload 0 true false] (mount (onlyRoomName r) false))
    = [{| i_domain := "meet.jit.si"; i_options := options c; i_listeners := c |}].
Proof.
  repeat split; try reflexivity;
    simpl in H; injection H as <-; reflexivity.
Qed.

Lemma roomName_only_defaults_witness :
  instances (run [Render false] (mount (onlyRoomName "standup") true)) !! 0
    = Some {| i_domain := "meet.jit.si";
              i_options := options (destructure (onlyRoomName "standup") 0);
              i_listeners := destructure (onlyRoomName "standup") 0 |} /\
  i_domain {| i_domain := "meet.jit.si";
              i_options := options (destructure (onlyRoomName "standup") 0);
              i_listeners := destructure (onlyRoomName "standup") 0 |}
    = "meet.jit.si".
Proof.
  assert (H : instances (run [Render false] (mount (onlyRoomName "standup") true)) !! 0
    = Some {| i_domain := "meet.jit.si";
              i_options := options (destructure (onlyRoomName "standup") 0);
              i_listeners := destructure (onlyRoomName "standup") 0 |})
    by reflexivity.
  destruct (roomName_only_defaults "standup") as (_ & _ & _ & _ & _ & F & _).
  exact (conj H (proj1 (F _ H))).
Defined.

(** ** Reconnecting, one cycle at a time *)

Lemma connectionFails_counts n w :
  settled n w -> n < MAX_RECONNECT_ATTEMPTS ->
  connectionFails w =
    with_reconnectAttempts (n + 1)
      (with_connectionStatus Reconnecting (with_isReconnectingRef true w)).
Proof.
  intros (M & A & S & N & F & (h & i & R & I & L) & _) Hn.
  unfold connectionFails. rewrite R. simpl. rewrite I. simpl.
  unfold handleConnectionFailure, handleConnectionIssue, setReconnectAttempts,
    setConnectionStatus.
  rewrite F. simpl. rewrite M. simpl. rewrite M, L, N.
  now rewrite decide_True by exact Hn.
Qed.

Lemma connectionFails_gives_up n w :
  settled n w -> MAX_RECONNECT_ATTEMPTS <= n ->
  connectionFails w =
    with_connectionStatus Failed (with_isReconnectingRef true w).
Proof.
  intros (M & A & S & N & F & (h & i & R & I & L) & _) Hn.
  unfold connectionFails. rewrite R. simpl. rewrite I. simpl.
  unfold handleConnectionFailure, handleConnectionIssue, setReconnectAttempts,
    setConnectionStatus.
  rewrite F. simpl. rewrite M. simpl. rewrite M, L.
  rewrite decide_False by lia. reflexivity.
Qed.

Lemma runCleanup_frame k w :
  mounted (runCleanup k w) = mounted w /\
  JitsiMeetExternalAPI (runCleanup k w) = JitsiMeetExternalAPI w /\
  instances (runCleanup k w) = instances w /\
  props (runCleanup k w) = props w /\
  reconnectAttempts (runCleanup k w) = reconnectAttempts w /\
  intervals (runCleanup k w) = intervals w.
Proof.
  destruct k as [sid|]; simpl.
  - destruct (scripts w !! sid) as [s|]; [destruct (s_inBody s)|]; repeat split.
  - destruct (jitsiApiRef w); repeat split.
Qed.

Lemma runEffect_loaded c w :
  mounted w = true -> JitsiMeetExternalAPI w = true ->
  mounted (runEffect c false w) = true /\
  JitsiMeetExternalAPI (runEffect c false w) = true /\
  connectionStatus (runEffect c false w) = Connected /\
  reconnectAttempts (runEffect c false w) = reconnectAttempts w /\
  isReconnectingRef (runEffect c false w) = false /\
  jitsiApiRef (runEffect c false w) = Some (length (instances w)) /\
  instances (runEffect c false w)
    = (instances w ++ [{| i_domain := domain c; i_options := options c;
                          i_listeners := c |}])%list /\
  lastEffect (runEffect c false w) = Some (depsOf c, DisposeInstance) /\
  props (runEffect c false w) = props w.
Proof.
  intros M A. unfold runEffect, effectBody, initializeJitsi, setConnectionStatus,
    setInterval, dispose.
  rewrite A. simpl.
  destruct (jitsiApiRef w); simpl; rewrite ?M; simpl; repeat split; assumption.
Qed.

Lemma reconnect_cycle n w :
  settled n w -> n < MAX_RECONNECT_ATTEMPTS ->
  settled (S n) (failAndRender w) /\
  jitsiApiRef (failAndRender w) = Some (length (instances w)) /\
  length (instances (failAndRender w)) = S (length (instances w)).
Proof.
  intros St Hn. unfold failAndRender. rewrite (connectionFails_counts n w St Hn).
  destruct St as (M & A & S & N & F & (h & i & R & I & L) & (k & E)).
  simpl. unfold commit. simpl. rewrite M, E.
  rewrite decide_False.
  2:{ unfold depsOf, destructure. simpl. intros Q. injection Q. lia. }
  set (w1 := with_reconnectAttempts (n + 1) _).
  destruct (runCleanup_frame k w1) as (M1 & A1 & I1 & P1 & N1 & _).
  destruct (runEffect_loaded (destructure (props w) (n + 1)) (runCleanup k w1))
    as (M2 & A2 & S2 & N2 & F2 & R2 & I2 & E2 & P2).
  { now rewrite M1. } { now rewrite A1. }
  rewrite I1 in *. simpl in I2, R2.
  split; [|split].
  - repeat split; try assumption.
    + rewrite N2, N1. simpl. lia.
    + eexists _, _. split; [exact R2|]. split.
      * rewrite I2. apply list_lookup_middle. reflexivity.
      * simpl. lia.
    + exists DisposeInstance. rewrite E2, P2, P1. simpl.
      now replace (n + 1) with (Datatypes.S n) by lia.
  - exact R2.
  - rewrite I2, length_app. simpl. lia.
Qed.

Lemma mount_settled p : settled 0 (run [Render false] (mount p true)).
Proof.
  repeat split.
  - eexists 0, _. repeat split.
  - eexists. reflexivity.
Qed.

Lemma script_mount_settled p :
  settled 0 (run [Render false; ScriptOnload 0 true false] (mount p false)).
Proof.
  repeat split.
  - eexists 0, _. repeat split.
  - eexists. reflexivity.
Qed.

Lemma gave_up n w :
  settled n w -> MAX_RECONNECT_ATTEMPTS <= n ->
  connectionStatus (connectionFails w) = Failed /\
  reconnectAttempts (connectionFails w) = n /\
  instances (connectionFails w) = instances w /\
  jitsiApiRef (connectionFails w) = jitsiApiRef w /\
  (forall b, step (Render b) (connectionFails w) = connectionFails w) /\
  (forall c, handleConnectionIssue c (connectionFails w) = connectionFails w).
Proof.
  intros St Hn. rewrite (connectionFails_gives_up n w St Hn).
  destruct St as (M & A & S & N & F & (h & i & R & I & L) & (k & E)).
  simpl. repeat split; try assumption.
  intros b. apply commit_not_pending. unfold effectPending. simpl.
  rewrite M, E, N. simpl. apply negb_false_iff, bool_decide_eq_true. reflexivity.
Qed.

(** ** After the policy has given up *)

Lemma setConnectionStatus_inert s w : inert w -> inert (setConnectionStatus s w).
Proof.
  intros (M & F & P). unfold setConnectionStatus. rewrite M.
  repeat split; assumption.
Qed.

Lemma inert_step ev w :
  isInternal ev = true -> inert w ->
  inert (step ev w) /\
  reconnectAttempts (step ev w) = reconnectAttempts w /\
  instances (step ev w) = instances w.
Proof.
  intros Hev Hw.
  assert (S : forall s, inert (setConnectionStatus s w) /\
    reconnectAttempts (setConnectionStatus s w) = reconnectAttempts w /\
    instances (setConnectionStatus s w) = instances w).
  { intros s. split; [now apply setConnectionStatus_inert|].
    unfold setConnectionStatus. destruct (mounted w); split; reflexivity. }
  assert (P : forall c, handleConnectionIssue c w = w).
  { intros c. apply handleConnectionIssue_in_flight, Hw. }
  destruct ev as [b|p| |sid d b|sid|api e|tid a t]; simpl; try discriminate.
  - rewrite commit_not_pending by apply Hw. auto.
  - destruct (scripts w !! sid) as [s|]; [|auto].
    destruct (s_pending s); [|auto].
    destruct Hw as (M & F & E).
    clear S P.
    unfold handleScriptError, setConnectionStatus, settle, inert, effectPending in *.
    simpl. rewrite M in *. simpl in *. rewrite ?M. simpl. auto.
  - destruct (instances w !! api) as [i|]; [|auto].
    destruct e; simpl; try apply S;
      unfold handleConnectionFailure, handleSuspendDetected, handleErrorOccurred;
      try destruct (isServiceError payload); rewrite ?P; auto.
  - destruct (intervals w !! tid) as [c|]; [|auto].
    unfold connectionMonitor. rewrite P.
    destruct (negb (bool_decide (is_Some (jitsiApiRef w))) || negb a), t; auto.
Qed.

Lemma inert_run evs w :
  forallb isInternal evs = true -> inert w ->
  inert (run evs w) /\
  reconnectAttempts (run evs w) = reconnectAttempts w /\
  instances (run evs w) = instances w.
Proof.
  revert w. induction evs as [|ev evs IH]; intros w Hevs Hw; simpl; [auto|].
  simpl in Hevs. apply andb_true_iff in Hevs as [Hev Hevs].
  destruct (inert_step ev w Hev Hw) as (I & N & L).
  destruct (IH (step ev w) Hevs I) as (I' & N' & L').
  fold (run evs (step ev w)). rewrite N', L', N, L. auto.
Qed.

Lemma gave_up_inert n w :
  settled n w -> MAX_RECONNECT_ATTEMPTS <= n -> inert (connectionFails w).
Proof.
  intros St Hn. rewrite (connectionFails_gives_up n w St Hn).
  destruct St as (M & A & S & N & F & _ & (k & E)).
  repeat split; try assumption.
  unfold effectPending. simpl. rewrite M, E, N. simpl.
  apply negb_false_iff, bool_decide_eq_true. reflexivity.
Qed.

(** ** C3: consecutive failures *)

(** C3, as stated, fails: from [connected] with counter 0, three
    [connectionFailed] events with no [connectionEstablished] or
    [videoConferenceJoined] in between never reach [failed]; the third
    failure is still answered by a fourth widget.  Delivered all three
    before React re-renders, they count as one failure. *)
Lemma three_failures_cex :
  let w0 := run [Render false] (mount standup true) in
  connectionStatus w0 = Connected /\
  reconnectAttempts w0 = 0 /\
  map (fun k => connectionStatus (run (take k threeFailures) w0)) (seq 0 7)
    = [Connected; Reconnecting; Connected; Reconnecting; Connected;
       Reconnecting; Connected] /\
  connectionStatus (run threeFailures w0) <> Failed /\
  reconnectAttempts (run threeFailures w0) = 3 /\
  length (instances (run (take 5 threeFailures) w0)) = 3 /\
  length (instances (run threeFailures w0)) = 4 /\
  jitsiApiRef (run threeFailures w0) = Some 3 /\
  connectionStatus
    (run [Widget 0 ConnectionFailed; Widget 0 ConnectionFailed;
          Widget 0 ConnectionFailed] w0) = Reconnecting /\
  reconnectAttempts
    (run [Widget 0 ConnectionFailed; Widget 0 ConnectionFailed;
          Widget 0 ConnectionFailed] w0) = 1.
Proof. vm_compute. repeat split; discriminate. Qed.

(** C3 (amended): from a connected component at rest with counter 0,
    each of the first three [connectionFailed] events, once React has
    re-rendered, has raised the counter by one and been answered by a new
    widget with status [connected]; the fourth ends at [failed] with the
    counter at 3, and from then on no re-render, listener, monitor tick or
    script error changes the counter or constructs a widget. *)
Theorem fourth_failure_gives_up (w : Component) :
  settled 0 w ->
  let w3 := failAndRender (failAndRender (failAndRender w)) in
  let w4 := connectionFails w3 in
  (connectionStatus w3 = Connected /\
   reconnectAttempts w3 = 3 /\
   length (instances w3) = length (instances w) + 3) /\
  (connectionStatus w4 = Failed /\
   reconnectAttempts w4 = 3 /\
   instances w4 = instances w3) /\
  (forall evs, forallb isInternal evs = true ->
     reconnectAttempts (run evs w4) = 3 /\
     instances (run evs w4) = instances w3).
Proof.
  intros S0 w3 w4.
  assert (B : forall n, n < 3 -> n < MAX_RECONNECT_ATTEMPTS)
    by (unfold MAX_RECONNECT_ATTEMPTS; lia).
  assert (G : MAX_RECONNECT_ATTEMPTS <= 3)
    by (unfold MAX_RECONNECT_ATTEMPTS; lia).
  destruct (reconnect_cycle 0 w S0) as (S1 & _ & L1); [apply B; lia|].
  destruct (reconnect_cycle 1 _ S1) as (S2 & _ & L2); [apply B; lia|].
  destruct (reconnect_cycle 2 _ S2) as (S3 & _ & L3); [apply B; lia|].
  fold w3 in S3, L3.
  destruct (gave_up 3 w3 S3 G) as (F & N & I & _).
  pose proof (gave_up_inert 3 w3 S3 G) as In.
  fold w4 in F, N, I, In.
  split; [|split].
  - destruct S3 as (_ & _ & C & N3 & _). repeat split; [exact C|exact N3|lia].
  - auto.
  - intros evs Hevs. destruct (inert_run evs w4 Hevs In) as (_ & N' & I').
    rewrite N', I', N, I. auto.
Qed.

Lemma fourth_failure_gives_up_witness :
  let w0 := run [Render false] (mount standup true) in
  settled 0 w0 /\
  failAndRender (failAndRender (failAndRender w0)) = run threeFailures w0 /\
  connectionFails (run threeFailures w0)
    = run (threeFailures ++ [Widget 3 ConnectionFailed]) w0 /\
  connectionStatus (connectionFails (failAndRender (failAndRender (failAndRender w0))))
    = Failed /\
  reconnectAttempts (connectionFails (failAndRender (failAndRender (failAndRender w0))))
    = 3.
Proof.
  intros w0.
  assert (S0 : settled 0 w0) by apply mount_settled.
  destruct (fourth_failure_gives_up w0 S0) as (_ & (F & N & _) & _).
  refine (conj S0 (conj _ (conj _ (conj F N)))); vm_compute; reflexivity.
Defined.

(** ** C2: the bound on the counter *)

(** C2: the code at the failing input.  After three reconnects the
    counter is 3 and the monitor of the first widget is still running,
    with the closure of the render that saw 0; when its probe throws, the
    policy compares 0 with the maximum, counts a fourth failure and a
    fifth widget is constructed. *)
Theorem stale_monitor_exceeds_MAX :
  let w3 := run (take 7 staleMonitorRun) (mount standup true) in
  let w := run staleMonitorRun (mount standup true) in
  reachable w /\
  reconnectAttempts w3 = 3 /\
  jitsiApiRef w3 = Some 3 /\
  attemptsSeen <$> intervals w3 !! 0 = Some 0 /\
  reconnectAttempts (step (Tick 0 true true) w3) = 4 /\
  reconnectAttempts w = 4 /\
  MAX_RECONNECT_ATTEMPTS < reconnectAttempts w /\
  connectionStatus w = Connected /\
  length (instances w) = 5.
Proof.
  intros w3 w. split; [apply reachable_run; constructor|].
  vm_compute. repeat split; lia.
Qed.

(** ** C4: teardown *)

Lemma unmount_intervals w : intervals (unmount w) = intervals w.
Proof.
  unfold unmount. destruct (mounted w); [simpl|reflexivity].
  destruct (lastEffect w) as [[d k]|]; [|reflexivity].
  apply runCleanup_frame.
Qed.

(** C4: the code at the failing inputs.  Neither cleanup of the effect
    clears a monitor: after an unmount, and after a change of room, the
    monitor created by [initializeJitsi] is still scheduled.  When the
    library had to be loaded first, the cleanup in force is the one that
    removes the script, and the unmount leaves the widget undisposed, its
    handle still in the ref. *)
Theorem teardown_leaks :
  let u1 := run [Render false; Unmount] (mount standup true) in
  let u2 := run [Render false; ScriptOnload 0 true false; Unmount] (mount standup false) in
  let u3 := run [Render false; SetProps otherRoom; Render false] (mount standup true) in
  (mounted u1 = false /\ disposals u1 = [0] /\ live u1 = [] /\
   size (intervals u1) = 1 /\ intervals u1 !! 0 = Some (destructure standup 0)) /\
  (mounted u2 = false /\ disposals u2 = [] /\ live u2 = [0] /\
   jitsiApiRef u2 = Some 0 /\
   size (intervals u2) = 1 /\ intervals u2 !! 0 = Some (destructure standup 0)) /\
  (mounted u3 = true /\ disposals u3 = [0] /\ live u3 = [1] /\
   size (intervals u3) = 2 /\
   intervals u3 !! 0 = Some (destructure standup 0) /\
   intervals u3 !! 1 = Some (destructure otherRoom 0)).
Proof. vm_compute. repeat split. Qed.

(** * Further properties of the component *)

(** ** Ownership of the widgets *)

Lemma owned_frame w w' :
  instances w' = instances w -> disposals w' = disposals w ->
  jitsiApiRef w' = jitsiApiRef w -> owned w -> owned w'.
Proof. unfold owned. intros -> -> ->. auto. Qed.

Lemma setConnectionStatus_owned s w : owned w -> owned (setConnectionStatus s w).
Proof.
  apply owned_frame; unfold setConnectionStatus; destruct (mounted w); reflexivity.
Qed.

Lemma handleConnectionIssue_owned c w : owned w -> owned (handleConnectionIssue c w).
Proof. apply owned_frame; policy_cases w; reflexivity. Qed.

Lemma release_owned w h :
  owned w -> jitsiApiRef w = Some h -> owned (with_jitsiApiRef None (dispose h w)).
Proof.
  intros (N & D & R & A) Hh. destruct (R h Hh) as [Hlt Hnd].
  unfold owned. simpl. repeat split.
  - now constructor.
  - intros h' [->|H]%elem_of_cons; auto.
  - discriminate.
  - discriminate.
  - intros h' Hh'. left. destruct (A h' Hh') as [H|H].
    + now right.
    + rewrite Hh in H. injection H as ->. now left.
Qed.

Lemma runCleanup_owned k w : owned w -> owned (runCleanup k w).
Proof.
  intros O. destruct k as [sid|]; simpl.
  - destruct (scripts w !! sid) as [s|]; [destruct (s_inBody s)|]; exact O.
  - destruct (jitsiApiRef w) as [h|] eqn:R; [|exact O]. now apply release_owned.
Qed.

Lemma construct_owned c w :
  owned w -> jitsiApiRef w = None ->
  owned (with_jitsiApiRef (Some (length (instances w)))
           (with_instances
              (instances w ++
               [{| i_domain := domain c; i_options := options c;
                   i_listeners := c |}]) w)).
Proof.
  intros (N & D & R & A) Hn. unfold owned. simpl.
  rewrite length_app. simpl. repeat split.
  - exact N.
  - intros h H. apply D in H. lia.
  - injection H as <-. lia.
  - injection H as <-. intros H. apply D in H. lia.
  - intros h Hh. destruct (decide (h = length (instances w))) as [->|Hne].
    + now right.
    + left. destruct (A h) as [H|H]; [lia|exact H|congruence].
Qed.

Lemma initializeJitsi_owned c b w : owned w -> owned (initializeJitsi c b w).
Proof.
  intros O. unfold initializeJitsi.
  destruct (JitsiMeetExternalAPI w); simpl; [|now apply setConnectionStatus_owned].
  set (w1 := match jitsiApiRef w with
             | Some h => with_jitsiApiRef None (dispose h w)
             | None => w
             end).
  assert (O1 : owned w1 /\ jitsiApiRef w1 = None).
  { subst w1. destruct (jitsiApiRef w) as [h|] eqn:R; [|auto].
    split; [now apply release_owned|reflexivity]. }
  destruct O1 as [O1 N1].
  destruct b; [now apply setConnectionStatus_owned|].
  pose proof (construct_owned c w1 O1 N1) as O2.
  revert O2. apply owned_frame;
    unfold setInterval, setConnectionStatus; simpl;
    destruct (mounted w1); reflexivity.
Qed.

Lemma step_owned ev w : owned w -> owned (step ev w).
Proof.
  intros O. destruct ev as [b|p| |sid d b|sid|api e|tid a t]; simpl.
  - unfold commit. destruct (mounted w); [|exact O].
    assert (E : forall c w0, owned w0 -> owned (runEffect c b w0)).
    { intros c w0 O0. unfold runEffect, effectBody.
      destruct (JitsiMeetExternalAPI w0); simpl; [|exact O0].
      now apply (initializeJitsi_owned c b) in O0. }
    destruct (lastEffect w) as [[d k]|]; [|now apply E].
    case_decide; [exact O|]. now apply E, runCleanup_owned.
  - destruct (mounted w); exact O.
  - unfold unmount. destruct (mounted w); [|exact O].
    destruct (lastEffect w) as [[d k]|]; [|exact O].
    now apply (runCleanup_owned k) in O.
  - destruct (scripts w !! sid) as [s|]; [|exact O].
    destruct (s_pending s); [|exact O].
    now apply initializeJitsi_owned.
  - destruct (scripts w !! sid) as [s|]; [|exact O].
    destruct (s_pending s); [|exact O].
    unfold handleScriptError. now apply setConnectionStatus_owned.
  - destruct (instances w !! api) as [i|]; [|exact O].
    destruct e; simpl;
      try (now apply setConnectionStatus_owned);
      try (now apply handleConnectionIssue_owned).
    unfold handleErrorOccurred. destruct (isServiceError payload); [|exact O].
    now apply handleConnectionIssue_owned.
  - destruct (intervals w !! tid) as [c|]; [|exact O].
    unfold connectionMonitor.
    destruct (negb (bool_decide (is_Some (jitsiApiRef w))) || negb a); [exact O|].
    destruct t; [|exact O].
    now apply (handleConnectionIssue_owned c) in O.
Qed.

Lemma mount_owned p l : owned (mount p l).
Proof.
  unfold owned. simpl. repeat split; try discriminate; try lia.
  - constructor.
  - intros h H. now apply elem_of_nil in H.
Qed.

(** In every state the component can reach, mounted or not: the widget
    in the ref has been constructed and not disposed of, every other
    widget ever constructed has been disposed of, exactly once; so the
    live widgets are the one in the ref, if any, and never two. *)
Theorem reachable_owned (w : Component) :
  reachable w ->
  owned w /\
  (forall h, h ∈ live w <-> jitsiApiRef w = Some h) /\
  length (live w) <= 1.
Proof.
  intros R.
  assert (O : owned w).
  { induction R as [p l|ev w _ IH]; [apply mount_owned|now apply step_owned]. }
  split; [exact O|].
  assert (L : forall h, h ∈ live w <-> jitsiApiRef w = Some h).
  { destruct O as (N & D & Rf & A). intros h. unfold live.
    rewrite list_elem_of_filter, elem_of_seq. split.
    - intros [Hnd [_ Hlt]]. simpl in Hlt. destruct (A h Hlt); [contradiction|assumption].
    - intros Hh. destruct (Rf h Hh). split; [assumption|]. simpl. lia. }
  split; [exact L|].
  assert (ND : NoDup (live w)) by (apply NoDup_filter, NoDup_seq).
  destruct (live w) as [|h1 [|h2 l]] eqn:E; simpl; try lia.
  exfalso. apply NoDup_cons in ND as [Hn _]. apply Hn.
  assert (H1 : jitsiApiRef w = Some h1) by (apply L; left).
  assert (H2 : jitsiApiRef w = Some h2) by (apply L; right; left).
  rewrite H1 in H2. injection H2 as ->. left.
Qed.

Lemma reachable_owned_witness :
  reachable afterOneReconnect /\
  live afterOneReconnect = [1] /\
  disposals afterOneReconnect = [0] /\
  length (live afterOneReconnect) <= 1.
Proof.
  assert (R : reachable afterOneReconnect) by (apply reachable_run; constructor).
  destruct (reachable_owned afterOneReconnect R) as (_ & _ & L).
  refine (conj R (conj _ (conj _ L))); vm_compute; reflexivity.
Defined.

(** ** Callbacks never run ahead of the counter *)

Lemma closures_behind_frame w w' :
  closures_behind w ->
  (forall tid c, intervals w' !! tid = Some c ->
     intervals w !! tid = Some c \/ attemptsSeen c <= reconnectAttempts w') ->
  (forall h i, instances w' !! h = Some i ->
     instances w !! h = Some i \/ attemptsSeen (i_listeners i) <= reconnectAttempts w') ->
  (forall sid s, scripts w' !! sid = Some s ->
     (exists s0, scripts w !! sid = Some s0 /\ s_scope s0 = s_scope s) \/
     attemptsSeen (s_scope s) <= reconnectAttempts w') ->
  reconnectAttempts w <= reconnectAttempts w' ->
  (connectionStatus w' = Failed ->
   connectionStatus w = Failed \/ MAX_RECONNECT_ATTEMPTS <= reconnectAttempts w') ->
  closures_behind w'.
Proof.
  intros (T & I & S & F) HT HI HS Hn HF. repeat split.
  - intros tid c H. destruct (HT tid c H) as [H'|H']; [apply T in H'|]; lia.
  - intros h i H. destruct (HI h i H) as [H'|H']; [apply I in H'|]; lia.
  - intros sid s H. destruct (HS sid s H) as [(s0 & H' & E)|H']; [|lia].
    apply S in H'. rewrite E in H'. lia.
  - intros H. destruct (HF H) as [H'|H']; [apply F in H'|]; lia.
Qed.

Lemma setConnectionStatus_behind s w :
  s <> Failed -> closures_behind w -> closures_behind (setConnectionStatus s w).
Proof.
  intros Hs B. apply (closures_behind_frame w); auto;
    unfold setConnectionStatus; destruct (mounted w); simpl; eauto; try lia.
  intros H. congruence.
Qed.

Lemma handleConnectionIssue_behind c w :
  attemptsSeen c <= reconnectAttempts w ->
  closures_behind w -> closures_behind (handleConnectionIssue c w).
Proof.
  intros Hc B. apply (closures_behind_frame w); auto.
  - policy_cases w; auto.
  - policy_cases w; auto.
  - policy_cases w; eauto.
  - policy_cases w; lia.
  - policy_cases w; auto; try discriminate. intros _. right. lia.
Qed.

Lemma clearInterval_behind tid w :
  closures_behind w -> closures_behind (clearInterval tid w).
Proof.
  intros B. apply (closures_behind_frame w); simpl; eauto.
  intros t c H. apply lookup_delete_Some in H as [_ H]. now left.
Qed.

Lemma initializeJitsi_behind c b w :
  attemptsSeen c <= reconnectAttempts w ->
  closures_behind w -> closures_behind (initializeJitsi c b w).
Proof.
  intros Hc B. unfold initializeJitsi.
  destruct (JitsiMeetExternalAPI w); simpl;
    [|apply setConnectionStatus_behind; [discriminate|exact B]].
  set (w1 := match jitsiApiRef w with
             | Some h => with_jitsiApiRef None (dispose h w)
             | None => w
             end).
  assert (F1 : intervals w1 = intervals w /\ instances w1 = instances w /\
               scripts w1 = scripts w /\ reconnectAttempts w1 = reconnectAttempts w /\
               connectionStatus w1 = connectionStatus w /\ mounted w1 = mounted w).
  { subst w1. destruct (jitsiApiRef w); repeat split. }
  destruct F1 as (E1 & E2 & E3 & E4 & E5 & E6).
  assert (B1 : closures_behind w1).
  { apply (closures_behind_frame w); auto; rewrite ?E1, ?E2, ?E3, ?E4, ?E5; eauto. }
  destruct b; [apply setConnectionStatus_behind; [discriminate|exact B1]|].
  apply (closures_behind_frame w1); auto;
    unfold setInterval, setConnectionStatus; simpl;
    destruct (mounted w1); simpl; eauto; try lia.
  - intros tid c0 H. apply lookup_insert_Some in H as [[_ <-]|[_ H]]; [right; lia|now left].
  - intros tid c0 H. apply lookup_insert_Some in H as [[_ <-]|[_ H]]; [right; lia|now left].
  - intros h i H. apply lookup_app_Some in H as [H|[_ H]]; [now left|].
    right. apply list_lookup_singleton_Some in H as [_ <-]. simpl. lia.
  - intros h i H. apply lookup_app_Some in H as [H|[_ H]]; [now left|].
    right. apply list_lookup_singleton_Some in H as [_ <-]. simpl. lia.
  - discriminate.
Qed.

Lemma runCleanup_behind k w : closures_behind w -> closures_behind (runCleanup k w).
Proof.
  intros B. destruct k as [sid|]; simpl.
  - destruct (scripts w !! sid) as [s|] eqn:E; [|exact B].
    destruct (s_inBody s); [|exact B].
    apply (closures_behind_frame w); auto; simpl; eauto.
    intros sid0 s0 H. left.
    apply list_lookup_insert_Some in H as [(-> & <- & _)|[_ H]]; eauto.
  - destruct (jitsiApiRef w); [|exact B].
    apply (closures_behind_frame w); auto; simpl; eauto.
Qed.

Lemma settle_behind sid s w :
  scripts w !! sid = Some s -> closures_behind w -> closures_behind (settle sid s w).
Proof.
  intros E B. apply (closures_behind_frame w); auto; simpl; eauto.
  intros sid0 s0 H. left.
  apply list_lookup_insert_Some in H as [(-> & <- & _)|[_ H]]; eauto.
Qed.

Lemma runEffect_behind b w :
  closures_behind w ->
  closures_behind (runEffect (destructure (props w) (reconnectAttempts w)) b w).
Proof.
  intros B. unfold runEffect, effectBody.
  destruct (JitsiMeetExternalAPI w); simpl.
  - pose proof (initializeJitsi_behind
                  (destructure (props w) (reconnectAttempts w)) b w) as H.
    simpl in H. specialize (H (le_n _) B).
    apply (closures_behind_frame _ _ H); simpl; eauto.
  - apply (closures_behind_frame w); auto; simpl; eauto.
    intros sid s H. apply lookup_app_Some in H as [H|[_ H]]; [eauto|].
    right. apply list_lookup_singleton_Some in H as [_ <-]. simpl. lia.
Qed.

Lemma step_behind ev w : closures_behind w -> closures_behind (step ev w).
Proof.
  intros B. destruct ev as [b|p| |sid d b|sid|api e|tid a t]; simpl.
  - unfold commit. destruct (mounted w); [|exact B].
    destruct (lastEffect w) as [[d k]|]; [|now apply runEffect_behind].
    case_decide; [exact B|].
    pose proof (runCleanup_frame k w) as (_ & _ & _ & P & N & _).
    pose proof (runEffect_behind b (runCleanup k w) (runCleanup_behind k w B)) as Q.
    now rewrite P, N in Q.
  - destruct (mounted w); [|exact B].
    apply (closures_behind_frame w); simpl; eauto.
  - unfold unmount. destruct (mounted w); [|exact B].
    destruct (lastEffect w) as [[d k]|].
    + apply (closures_behind_frame _ _ (runCleanup_behind k w B)); simpl; eauto.
    + apply (closures_behind_frame w); simpl; eauto.
  - destruct (scripts w !! sid) as [s|] eqn:E; [|exact B].
    destruct (s_pending s); [|exact B].
    apply initializeJitsi_behind.
    + simpl. destruct B as (_ & _ & S & _). now apply (S sid).
    + apply (closures_behind_frame _ _ (settle_behind sid s w E B)); simpl; eauto.
  - destruct (scripts w !! sid) as [s|] eqn:E; [|exact B].
    destruct (s_pending s); [|exact B].
    apply setConnectionStatus_behind; [discriminate|now apply settle_behind].
  - destruct (instances w !! api) as [i|] eqn:E; [|exact B].
    assert (Hi : attemptsSeen (i_listeners i) <= reconnectAttempts w)
      by (destruct B as (_ & I & _); now apply (I api)).
    destruct e; simpl;
      try (apply setConnectionStatus_behind; [discriminate|exact B]);
      try (now apply handleConnectionIssue_behind).
    unfold handleErrorOccurred. destruct (isServiceError payload); [|exact B].
    now apply handleConnectionIssue_behind.
  - destruct (intervals w !! tid) as [c|] eqn:E; [|exact B].
    assert (Hc : attemptsSeen c <= reconnectAttempts w)
      by (destruct B as (T & _); now apply (T tid)).
    unfold connectionMonitor.
    destruct (negb (bool_decide (is_Some (jitsiApiRef w))) || negb a);
      [now apply clearInterval_behind|].
    destruct t; [|exact B].
    now apply clearInterval_behind, handleConnectionIssue_behind.
Qed.

(** In every reachable state no monitor, listener or script callback was
    created in a render that saw a larger counter than the current one,
    and [failed] is never shown before the counter has reached the
    maximum: it takes at least three counted failures to give up. *)
Theorem reachable_failed_counted (w : Component) :
  reachable w ->
  closures_behind w /\
  (connectionStatus w = Failed -> MAX_RECONNECT_ATTEMPTS <= reconnectAttempts w).
Proof.
  intros R.
  assert (B : closures_behind w).
  { induction R as [p l|ev w _ IH]; [|now apply step_behind].
    repeat split; simpl; try discriminate; intros ? ? H;
      try (apply lookup_empty_Some in H; contradiction);
      rewrite lookup_nil in H; discriminate. }
  split; [exact B|apply B].
Qed.

Lemma reachable_failed_counted_witness :
  reachable (run (threeFailures ++ [Widget 3 ConnectionFailed])
               (run [Render false] (mount standup true))) /\
  connectionStatus (run (threeFailures ++ [Widget 3 ConnectionFailed])
               (run [Render false] (mount standup true))) = Failed /\
  MAX_RECONNECT_ATTEMPTS
    <= reconnectAttempts (run (threeFailures ++ [Widget 3 ConnectionFailed])
               (run [Render false] (mount standup true))).
Proof.
  assert (R : reachable (run (threeFailures ++ [Widget 3 ConnectionFailed])
               (run [Render false] (mount standup true))))
    by (do 2 apply reachable_run; constructor).
  assert (F : connectionStatus (run (threeFailures ++ [Widget 3 ConnectionFailed])
               (run [Render false] (mount standup true))) = Failed)
    by (vm_compute; reflexivity).
  destruct (reachable_failed_counted _ R) as (_ & H).
  exact (conj R (conj F (H F))).
Defined.

(** ** The counter only grows *)

Lemma step_counter ev w :
  reconnectAttempts w <= reconnectAttempts (step ev w) <= reconnectAttempts w + 1.
Proof.
  assert (S : forall s w0, reconnectAttempts (setConnectionStatus s w0) = reconnectAttempts w0).
  { intros s w0. unfold setConnectionStatus. now destruct (mounted w0). }
  assert (P : forall c, reconnectAttempts w <= reconnectAttempts (handleConnectionIssue c w)
                        <= reconnectAttempts w + 1).
  { intros c. destruct (handleConnectionIssue_counter c w) as [-> | ->]; lia. }
  assert (I : forall c b w0, reconnectAttempts (initializeJitsi c b w0) = reconnectAttempts w0).
  { intros c b w0. unfold initializeJitsi, setInterval.
    destruct (JitsiMeetExternalAPI w0); simpl; [|apply S].
    destruct (jitsiApiRef w0), b; simpl; rewrite ?S; reflexivity. }
  assert (E : forall c b w0, reconnectAttempts (runEffect c b w0) = reconnectAttempts w0).
  { intros c b w0. unfold runEffect, effectBody.
    destruct (JitsiMeetExternalAPI w0); simpl; [apply I|reflexivity]. }
  destruct ev as [b|p| |sid d b|sid|api e|tid a t]; simpl.
  - unfold commit. destruct (mounted w); [|lia].
    destruct (lastEffect w) as [[d k]|]; [case_decide|]; rewrite ?E; try lia.
    destruct (runCleanup_frame k w) as (_ & _ & _ & _ & -> & _). lia.
  - destruct (mounted w); simpl; lia.
  - unfold unmount. destruct (mounted w); [|lia].
    destruct (lastEffect w) as [[d k]|]; simpl; [|lia].
    destruct (runCleanup_frame k w) as (_ & _ & _ & _ & -> & _). lia.
  - destruct (scripts w !! sid) as [s|]; [|lia].
    destruct (s_pending s); [|lia]. rewrite I. simpl. lia.
  - destruct (scripts w !! sid) as [s|]; [|lia].
    destruct (s_pending s); [|lia]. unfold handleScriptError. rewrite S. simpl. lia.
  - destruct (instances w !! api) as [i|]; [|lia].
    destruct e; simpl;
      unfold handleClose, handleVideoConferenceJoined, handleVideoConferenceLeft,
        connectionEstablished, handleConnectionFailure, handleSuspendDetected,
        handleErrorOccurred; rewrite ?S; try lia; try apply P.
    destruct (isServiceError payload); [apply P|lia].
  - destruct (intervals w !! tid) as [c|]; [|lia].
    unfold connectionMonitor.
    destruct (negb (bool_decide (is_Some (jitsiApiRef w))) || negb a); simpl; [lia|].
    destruct t; simpl; [apply P|lia].
Qed.

(** Whatever happens to the component (events of the widget, ticks,
    renders, changes of props, script loads, the unmount), the counter
    never goes down and never jumps: over a run it ends between its
    initial value and that value plus the number of events. *)
Theorem counter_monotone (evs : list Event) (w : Component) :
  reconnectAttempts w <= reconnectAttempts (run evs w) <=
  reconnectAttempts w + length evs.
Proof.
  revert w. induction evs as [|ev evs IH]; intros w; simpl; [lia|].
  fold (run evs (step ev w)).
  pose proof (step_counter ev w). pose proof (IH (step ev w)). lia.
Qed.

(** ** Changes of props *)

Lemma rebuild_disposes c k w h :
  mounted w = true -> JitsiMeetExternalAPI w = true ->
  jitsiApiRef w = Some h ->
  disposals (runEffect c false (runCleanup k w)) = h :: disposals w.
Proof.
  intros M A R.
  unfold runEffect, effectBody, initializeJitsi, setConnectionStatus, setInterval,
    dispose.
  destruct k as [sid|]; simpl.
  - destruct (scripts w !! sid) as [s|]; [destruct (s_inBody s)|]; simpl;
      rewrite A, R; simpl; rewrite M; reflexivity.
  - rewrite R. simpl. rewrite A. simpl. rewrite M. reflexivity.
Qed.

(** When a connected component at rest is given props with another room
    name, display name or domain, the next render disposes of the widget
    in the ref, once, and constructs one widget from the new props; the
    component is connected and at rest again, the counter unchanged. *)
Theorem props_change_rebuilds (n : nat) (w : Component) (p' : JitsiMeetProps) :
  settled n w ->
  depsOf (destructure p' n) <> depsOf (destructure (props w) n) ->
  settled n (run [SetProps p'; Render false] w) /\
  props (run [SetProps p'; Render false] w) = p' /\
  (exists h, jitsiApiRef w = Some h /\
             disposals (run [SetProps p'; Render false] w) = h :: disposals w) /\
  instances (run [SetProps p'; Render false] w)
    = (instances w ++
       [{| i_domain := domain (destructure p' n);
           i_options := options (destructure p' n);
           i_listeners := destructure p' n |}])%list /\
  jitsiApiRef (run [SetProps p'; Render false] w) = Some (length (instances w)).
Proof.
  intros (M & A & S & N & F & (h & i & R & I & L) & (k & E)) Hd.
  simpl. rewrite M. unfold commit. simpl. rewrite M, E, N.
  rewrite decide_False by congruence.
  set (w1 := with_props p' w).
  destruct (runCleanup_frame k w1) as (M1 & A1 & I1 & P1 & N1 & _).
  destruct (runEffect_loaded (destructure p' n) (runCleanup k w1))
    as (M2 & A2 & S2 & N2 & F2 & R2 & I2 & E2 & P2).
  { now rewrite M1. } { now rewrite A1. }
  rewrite I1 in *. simpl in I2, R2.
  split; [|split; [|split; [|split]]].
  - repeat split; try assumption.
    + now rewrite N2, N1.
    + eexists _, _. split; [exact R2|]. split.
      * rewrite I2. apply list_lookup_middle. reflexivity.
      * reflexivity.
    + exists DisposeInstance. now rewrite E2, P2, P1.
  - now rewrite P2, P1.
  - exists h. split; [exact R|]. now apply (rebuild_disposes _ k w1 h).
  - exact I2.
  - exact R2.
Qed.

Lemma props_change_rebuilds_witness :
  settled 0 (run [Render false] (mount standup true)) /\
  depsOf (destructure otherRoom 0)
    <> depsOf (destructure (props (run [Render false] (mount standup true))) 0) /\
  disposals (run [SetProps otherRoom; Render false]
               (run [Render false] (mount standup true))) = [0] /\
  jitsiApiRef (run [SetProps otherRoom; Render false]
                 (run [Render false] (mount standup true))) = Some 1.
Proof.
  assert (S : settled 0 (run [Render false] (mount standup true)))
    by apply mount_settled.
  assert (D : depsOf (destructure otherRoom 0)
    <> depsOf (destructure (props (run [Render false] (mount standup true))) 0))
    by (vm_compute; discriminate).
  destruct (props_change_rebuilds 0 _ otherRoom S D)
    as (_ & _ & (h & Hh & Hd) & _ & R).
  refine (conj S (conj D (conj _ R))).
  rewrite Hd. vm_compute in Hh. injection Hh as <-. reflexivity.
Defined.

(** Props that are not dependencies of the effect do not reach the
    widget: when the new props give the same room name, display name and
    domain (only the mute flags differ), the next render runs no effect,
    so no widget is disposed of or constructed and the one in the ref
    keeps the options it was built with. *)
Theorem mute_props_change_ignored (n : nat) (w : Component) (p' : JitsiMeetProps)
    (ctorThrows : bool) :
  settled n w ->
  depsOf (destructure p' n) = depsOf (destructure (props w) n) ->
  run [SetProps p'; Render ctorThrows] w = with_props p' w /\
  instances (run [SetProps p'; Render ctorThrows] w) = instances w /\
  disposals (run [SetProps p'; Render ctorThrows] w) = disposals w /\
  jitsiApiRef (run [SetProps p'; Render ctorThrows] w) = jitsiApiRef w.
Proof.
  intros (M & A & S & N & F & _ & (k & E)) Hd.
  assert (Q : run [SetProps p'; Render ctorThrows] w = with_props p' w).
  { simpl. rewrite M. apply commit_not_pending.
    unfold effectPending. simpl. rewrite M, E, N. simpl.
    apply negb_false_iff, bool_decide_eq_true. congruence. }
  rewrite Q. repeat split.
Qed.

Lemma mute_props_change_ignored_witness :
  settled 0 (run [Render false] (mount standup true)) /\
  depsOf (destructure standupMuted 0)
    = depsOf (destructure (props (run [Render false] (mount standup true))) 0) /\
  co_startWithAudioMuted (configOverwrite (options (destructure standupMuted 0))) = true /\
  (co_startWithAudioMuted ∘ configOverwrite ∘ i_options)
    <$> instances (run [SetProps standupMuted; Render false]
                     (run [Render false] (mount standup true)))
    = [false].
Proof.
  assert (S : settled 0 (run [Render false] (mount standup true)))
    by apply mount_settled.
  assert (D : depsOf (destructure standupMuted 0)
    = depsOf (destructure (props (run [Render false] (mount standup true))) 0))
    by (vm_compute; reflexivity).
  destruct (mute_props_change_ignored 0 _ standupMuted false S D) as (_ & I & _).
  refine (conj S (conj D (conj eq_refl _))).
  rewrite I. vm_compute. reflexivity.
Defined.

(** ** The script tag *)

Lemma at_most_one_filtered {A} (P : A -> Prop) `{!forall x, Decision (P x)} (l : list A) :
  (forall i j x y, l !! i = Some x -> l !! j = Some y -> P x -> P y -> i = j) ->
  length (filter P l) <= 1.
Proof.
  induction l as [|a l IH]; intros U; [simpl; lia|].
  rewrite filter_cons.
  assert (U' : forall i j x y, l !! i = Some x -> l !! j = Some y -> P x -> P y -> i = j).
  { intros i j x y Hi Hj Px Py.
    assert (S i = S j) by (apply (U (S i) (S j) x y); assumption). lia. }
  destruct (decide (P a)) as [Pa|]; [|auto].
  destruct (filter P l) as [|y l'] eqn:E; [simpl; lia|].
  exfalso.
  assert (Hy : y ∈ filter P l) by (rewrite E; left).
  apply list_elem_of_filter in Hy as [Py Hy].
  apply list_elem_of_lookup in Hy as [j Hj].
  assert (0 = S j) by (apply (U 0 (S j) a y); auto). lia.
Qed.

Lemma cleanup_clears_body w d k :
  script_tracked w -> lastEffect w = Some (d, k) -> noneInBody (runCleanup k w).
Proof.
  intros T E sid s H. destruct (s_inBody s) eqn:B; [exfalso|reflexivity].
  destruct k as [sid0|]; simpl in H.
  - destruct (scripts w !! sid0) as [s0|] eqn:E0.
    + destruct (s_inBody s0) eqn:B0.
      * apply list_lookup_insert_Some in H as [(-> & <- & _)|[Hne H]].
        -- discriminate B.
        -- destruct (T sid s H B) as [d' E']. congruence.
      * destruct (T sid s H B) as [d' E']. congruence.
    + destruct (T sid s H B) as [d' E']. congruence.
  - destruct (jitsiApiRef w); simpl in H;
      destruct (T sid s H B) as [d' E']; congruence.
Qed.

Lemma runEffect_tracked c b w :
  noneInBody w -> script_tracked (runEffect c b w).
Proof.
  intros N sid s H B. unfold runEffect, effectBody in *.
  destruct (JitsiMeetExternalAPI w); simpl in *.
  - exfalso.
    assert (E : scripts (initializeJitsi c b w) = scripts w).
    { unfold initializeJitsi, setConnectionStatus, setInterval, dispose.
      destruct (JitsiMeetExternalAPI w), (jitsiApiRef w), b, (mounted w) eqn:M;
        simpl; rewrite ?M; reflexivity. }
    rewrite E in H. apply N in H. congruence.
  - apply lookup_app_Some in H as [H|[Hl H]].
    + apply N in H. congruence.
    + apply list_lookup_singleton_Some in H as [Hs _].
      assert (sid = length (scripts w)) as -> by lia. eauto.
Qed.

Lemma script_frame w w' :
  scripts w' = scripts w -> lastEffect w' = lastEffect w ->
  script_tracked w -> script_tracked w'.
Proof. unfold script_tracked. intros -> ->. auto. Qed.

Lemma initializeJitsi_tracked c b w :
  script_tracked w -> script_tracked (initializeJitsi c b w).
Proof.
  apply script_frame;
    unfold initializeJitsi, setConnectionStatus, setInterval, dispose;
    destruct (JitsiMeetExternalAPI w), (jitsiApiRef w), b, (mounted w) eqn:M;
    simpl; rewrite ?M; reflexivity.
Qed.

Lemma settle_tracked sid s w :
  scripts w !! sid = Some s -> script_tracked w -> script_tracked (settle sid s w).
Proof.
  intros E T sid0 s0 H B. unfold script_tracked in T. simpl in *.
  apply list_lookup_insert_Some in H as [(-> & <- & _)|[_ H]]; [|now apply (T sid0 s0)].
  simpl in B. now apply (T sid0 s).
Qed.

Ltac same_inv :=
  split;
  [ first [assumption | eapply script_frame; [| |eassumption]; reflexivity]
  | simpl; first [assumption | intros; congruence | intros; eauto] ].

Lemma step_script_inv ev w : script_inv w -> script_inv (step ev w).
Proof.
  intros [T U].
  assert (N0 : lastEffect w = None -> noneInBody w).
  { intros E sid s H. destruct (s_inBody s) eqn:B; [|reflexivity].
    destruct (T sid s H B) as [d E']. congruence. }
  assert (SC : forall s0, script_inv (setConnectionStatus s0 w)).
  { intros s0. unfold setConnectionStatus. destruct (mounted w) eqn:M; same_inv. }
  assert (PC : forall c, script_inv (handleConnectionIssue c w)).
  { intros c. split.
    - revert T. apply script_frame; policy_cases w; reflexivity.
    - rewrite handleConnectionIssue_mounted. intros M.
      rewrite <- (U M). policy_cases w; reflexivity. }
  destruct ev as [b|p| |sid d b|sid|api e|tid a t]; simpl.
  - unfold commit. destruct (mounted w) eqn:M; [|same_inv].
    assert (RM : forall c w0, mounted w0 = true -> mounted (runEffect c b w0) = false ->
                 lastEffect (runEffect c b w0) = None).
    { intros c w0 M0. unfold runEffect, effectBody.
      destruct (JitsiMeetExternalAPI w0); simpl; [|congruence].
      unfold initializeJitsi, setConnectionStatus, setInterval, dispose.
      destruct (JitsiMeetExternalAPI w0), (jitsiApiRef w0), b; simpl;
        rewrite ?M0; simpl; congruence. }
    destruct (lastEffect w) as [[d k]|] eqn:E.
    + case_decide; [same_inv|]. split.
      * apply runEffect_tracked. now apply (cleanup_clears_body w d k).
      * apply RM. destruct (runCleanup_frame k w) as (-> & _). exact M.
    + split; [apply runEffect_tracked; auto|apply RM; exact M].
  - destruct (mounted w) eqn:M; same_inv.
  - unfold unmount. destruct (mounted w) eqn:M; [|same_inv].
    split; [|reflexivity].
    destruct (lastEffect w) as [[d k]|] eqn:E.
    + pose proof (cleanup_clears_body w d k T E) as N.
      intros sid s H B. simpl in H. apply N in H. congruence.
    + intros sid s H B. simpl in H. apply N0 in H; congruence.
  - destruct (scripts w !! sid) as [s|] eqn:E; [|same_inv].
    destruct (s_pending s); [|same_inv]. split.
    + apply initializeJitsi_tracked.
      generalize (settle_tracked sid s w E T). apply script_frame; reflexivity.
    + intros M'.
      assert (M : mounted w = false).
      { revert M'. unfold initializeJitsi, setConnectionStatus, setInterval, dispose.
        simpl. destruct (JitsiMeetExternalAPI w || d), (jitsiApiRef w), b,
          (mounted w) eqn:M; simpl; rewrite ?M; simpl; congruence. }
      rewrite <- (U M).
      unfold initializeJitsi, setConnectionStatus, setInterval, dispose.
      simpl. destruct (JitsiMeetExternalAPI w || d), (jitsiApiRef w), b; simpl;
        rewrite ?M; reflexivity.
  - destruct (scripts w !! sid) as [s|] eqn:E; [|same_inv].
    destruct (s_pending s); [|same_inv].
    unfold handleScriptError, setConnectionStatus. simpl.
    destruct (mounted w) eqn:M; (split; [now apply settle_tracked|simpl; congruence || auto]).
  - destruct (instances w !! api) as [i|]; [|same_inv].
    destruct e; simpl; try apply SC; try apply PC.
    unfold handleErrorOccurred. destruct (isServiceError payload); [apply PC|same_inv].
  - destruct (intervals w !! tid) as [c|]; [|same_inv].
    unfold connectionMonitor.
    destruct (negb (bool_decide (is_Some (jitsiApiRef w))) || negb a); [same_inv|].
    destruct t; [|same_inv].
    destruct (PC c) as [T' U']. same_inv.
Qed.

(** In every reachable state at most one script element created by the
    component is in the document body, and once the component has
    unmounted none is. *)
Theorem at_most_one_script_in_body (w : Component) :
  reachable w ->
  length (scriptsInBody w) <= 1 /\
  (mounted w = false -> scriptsInBody w = []).
Proof.
  intros R.
  assert (I : script_inv w).
  { induction R as [p l|ev w _ IH]; [|now apply step_script_inv].
    split; [|discriminate]. intros sid s H. simpl in H. rewrite lookup_nil in H.
    discriminate. }
  destruct I as [T U]. split.
  - apply at_most_one_filtered. intros i j x y Hi Hj Bx By.
    destruct (T i x Hi Bx) as [d E], (T j y Hj By) as [d' E']. congruence.
  - intros M. destruct (scriptsInBody w) as [|s l] eqn:E; [reflexivity|exfalso].
    assert (Hs : s ∈ scriptsInBody w) by (rewrite E; left).
    apply list_elem_of_filter in Hs as [B Hs].
    apply list_elem_of_lookup in Hs as [i Hi].
    destruct (T i s Hi B) as [d E']. rewrite (U M) in E'. discriminate.
Qed.

Lemma at_most_one_script_in_body_witness :
  reachable (run [Render false; SetProps otherRoom; Render false; Unmount]
               (mount standup false)) /\
  mounted (run [Render false; SetProps otherRoom; Render false; Unmount]
               (mount standup false)) = false /\
  length (scripts (run [Render false; SetProps otherRoom; Render false; Unmount]
               (mount standup false))) = 2 /\
  scriptsInBody (run [Render false; SetProps otherRoom; Render false; Unmount]
               (mount standup false)) = [].
Proof.
  assert (R : reachable (run [Render false; SetProps otherRoom; Render false; Unmount]
               (mount standup false))) by (apply reachable_run; constructor).
  assert (M : mounted (run [Render false; SetProps otherRoom; Render false; Unmount]
               (mount standup false)) = false) by (vm_compute; reflexivity).
  destruct (at_most_one_script_in_body _ R) as (_ & H).
  refine (conj R (conj M (conj _ (H M)))). vm_compute. reflexivity.
Defined.

(** ** The bound, for callbacks that are up to date *)

Lemma fresh_step_bounded ev w :
  staleFailure ev w = false ->
  reconnectAttempts w <= MAX_RECONNECT_ATTEMPTS ->
  reconnectAttempts (step ev w) <= MAX_RECONNECT_ATTEMPTS.
Proof.
  intros Hs B.
  assert (S : forall s w0, reconnectAttempts (setConnectionStatus s w0) = reconnectAttempts w0).
  { intros s w0. unfold setConnectionStatus. now destruct (mounted w0). }
  assert (P : forall c, isReconnectingRef w = true \/ upToDate c w = true ->
                reconnectAttempts (handleConnectionIssue c w) <= MAX_RECONNECT_ATTEMPTS).
  { intros c [F|U].
    - now rewrite handleConnectionIssue_in_flight.
    - apply bool_decide_eq_true in U. policy_cases w; lia. }
  assert (I : forall c b w0, reconnectAttempts (initializeJitsi c b w0) = reconnectAttempts w0).
  { intros c b w0. unfold initializeJitsi, setInterval.
    destruct (JitsiMeetExternalAPI w0); simpl; [|apply S].
    destruct (jitsiApiRef w0), b; simpl; rewrite ?S; reflexivity. }
  assert (E : forall c b w0, reconnectAttempts (runEffect c b w0) = reconnectAttempts w0).
  { intros c b w0. unfold runEffect, effectBody.
    destruct (JitsiMeetExternalAPI w0); simpl; [apply I|reflexivity]. }
  assert (G : forall (x : bool), negb (isReconnectingRef w) && x = false ->
                x = true -> isReconnectingRef w = true).
  { intros x H ->. rewrite andb_true_r in H. now apply negb_false_iff in H. }
  destruct ev as [b|p| |sid d b|sid|api e|tid a t]; simpl.
  - unfold commit. destruct (mounted w); [|lia].
    destruct (lastEffect w) as [[d k]|]; [case_decide|]; rewrite ?E; try lia.
    destruct (runCleanup_frame k w) as (_ & _ & _ & _ & -> & _). lia.
  - destruct (mounted w); simpl; lia.
  - unfold unmount. destruct (mounted w); [|lia].
    destruct (lastEffect w) as [[d k]|]; simpl; [|lia].
    destruct (runCleanup_frame k w) as (_ & _ & _ & _ & -> & _). lia.
  - destruct (scripts w !! sid) as [s|]; [|lia].
    destruct (s_pending s); [|lia]. rewrite I. simpl. lia.
  - destruct (scripts w !! sid) as [s|]; [|lia].
    destruct (s_pending s); [|lia]. unfold handleScriptError. rewrite S. simpl. lia.
  - unfold staleFailure in Hs.
    destruct (instances w !! api) as [i|]; [|lia].
    assert (Q : invokesPolicy e = true ->
                isReconnectingRef w = true \/ upToDate (i_listeners i) w = true).
    { intros V. rewrite V in Hs. simpl in Hs.
      destruct (upToDate (i_listeners i) w); [now right|left]. now apply (G true). }
    destruct e; simpl;
      unfold handleClose, handleVideoConferenceJoined, handleVideoConferenceLeft,
        connectionEstablished, handleConnectionFailure, handleSuspendDetected,
        handleErrorOccurred; rewrite ?S; try lia; try (apply P, Q; reflexivity).
    destruct (isServiceError payload) eqn:V; [|lia]. apply P, Q. exact V.
  - unfold staleFailure in Hs.
    destruct (intervals w !! tid) as [c|]; [|lia].
    unfold connectionMonitor.
    destruct (bool_decide (is_Some (jitsiApiRef w))), a; simpl; try lia.
    destruct t; simpl; [|lia]. apply P. simpl in Hs.
    destruct (upToDate c w); [now right|left]. now apply (G true).
Qed.

(** The counter passes the maximum only through a stale callback.  From
    any state in which it is within the maximum, and through any run
    (renders, changes of props, script loads and errors, constructor
    failures, ticks, widget events, the unmount) in which no failure
    listener and no throwing probe created in a render that saw a smaller
    counter fires while no reconnect is in flight, the counter stays within
    the maximum. *)
Theorem fresh_failures_bounded (evs : list Event) (w : Component) :
  reconnectAttempts w <= MAX_RECONNECT_ATTEMPTS ->
  noStaleFailure evs w = true ->
  reconnectAttempts (run evs w) <= MAX_RECONNECT_ATTEMPTS.
Proof.
  revert w. induction evs as [|ev evs IH]; intros w B N; simpl; [exact B|].
  simpl in N. apply andb_true_iff in N as [N1 N2].
  apply negb_true_iff in N1.
  fold (run evs (step ev w)). apply IH; [|exact N2].
  now apply fresh_step_bounded.
Qed.

Lemma fresh_failures_bounded_witness :
  reconnectAttempts (mount standup true) <= MAX_RECONNECT_ATTEMPTS /\
  noStaleFailure freshFailuresRun (mount standup true) = true /\
  reconnectAttempts (run freshFailuresRun (mount standup true))
    <= MAX_RECONNECT_ATTEMPTS /\
  reconnectAttempts (run freshFailuresRun (mount standup true)) = 3 /\
  length (instances (run freshFailuresRun (mount standup true))) = 5 /\
  noStaleFailure staleMonitorRun (mount standup true) = false.
Proof.
  assert (B : reconnectAttempts (mount standup true) <= MAX_RECONNECT_ATTEMPTS)
    by (vm_compute; lia).
  assert (N : noStaleFailure freshFailuresRun (mount standup true) = true)
    by (vm_compute; reflexivity).
  refine (conj B (conj N (conj (fresh_failures_bounded _ _ B N) _)));
    vm_compute; repeat split.
Defined.

(** ** Which errors reach the reconnect policy *)

Lemma append_empty (s : string) : "" ++ s = s.
Proof. reflexivity. Qed.

Lemma append_String (x : Ascii.ascii) (s t : string) :
  String x s ++ t = String x (s ++ t).
Proof. reflexivity. Qed.

Lemma substring_prefix sub b :
  String.substring 0 (String.length sub) (sub ++ b) = sub.
Proof.
  induction sub as [|x sub IH].
  - rewrite append_empty. simpl. now destruct b.
  - rewrite append_String. simpl. now rewrite IH.
Qed.

Lemma substring_middle a sub b :
  String.substring (String.length a) (String.length sub) (a ++ sub ++ b) = sub.
Proof.
  induction a as [|x a IH].
  - rewrite append_empty. apply substring_prefix.
  - rewrite append_String. simpl. exact IH.
Qed.

Lemma substring_prefix_inv sub s :
  String.substring 0 (String.length sub) s = sub -> exists b, s = sub ++ b.
Proof.
  revert s. induction sub as [|x sub IH]; intros s H; simpl in *.
  - now exists s.
  - destruct s as [|y s]; [discriminate|]. injection H as -> H.
    destruct (IH s H) as [b ->]. now exists b.
Qed.

Lemma substring_middle_inv m sub s :
  String.substring m (String.length sub) s = sub -> exists a b, s = a ++ sub ++ b.
Proof.
  revert s. induction m as [|m IH]; intros s H.
  - destruct (substring_prefix_inv sub s H) as [b ->]. now exists "", b.
  - destruct s as [|y s]; simpl in H.
    + subst sub. now exists "", "".
    + destruct (IH s H) as (a & b & ->). now exists (String y a), b.
Qed.

Lemma includes_spec s sub :
  includes s sub = true <-> exists a b, s = a ++ sub ++ b.
Proof.
  unfold includes. split.
  - destruct (String.index 0 sub s) as [m|] eqn:E; [|discriminate]. intros _.
    apply String.index_correct1 in E. now apply substring_middle_inv in E.
  - intros (a & b & ->).
    destruct (String.index 0 sub (a ++ sub ++ b)) as [m|] eqn:E; [reflexivity|exfalso].
    destruct sub as [|x sub].
    + apply String.index_correct4 in E. lia.
    + apply (String.index_correct3 _ (String.length a)) in E; [|discriminate|lia].
      apply E, substring_middle.
Qed.

(** An [errorOccurred] event reaches the reconnect policy exactly when
    its payload has an [error] text that contains "service" or "limit"
    somewhere (case-sensitive); any other [errorOccurred] leaves the
    component exactly as it was. *)
Theorem errorOccurred_filter (c : Scope) (payload : option string) (w : Component) :
  (isServiceError payload = true <->
   exists e a b, payload = Some e /\
                 (e = a ++ "service" ++ b \/ e = a ++ "limit" ++ b)) /\
  (isServiceError payload = true ->
   listener c (ErrorOccurred payload) w = handleConnectionIssue c w) /\
  (isServiceError payload = false ->
   listener c (ErrorOccurred payload) w = w).
Proof.
  split; [|split].
  - unfold isServiceError. destruct payload as [e|].
    + rewrite orb_true_iff, !includes_spec. split.
      * intros [(a & b & ->)|(a & b & ->)]; eauto 7.
      * intros (e' & a & b & [= <-] & [->| ->]); eauto.
    + split; [discriminate|]. intros (e & a & b & H & _). discriminate.
  - intros H. simpl. unfold handleErrorOccurred. now rewrite H.
  - intros H. simpl. unfold handleErrorOccurred. now rewrite H.
Qed.

Lemma errorOccurred_filter_witness :
  isServiceError (Some "conference.connectionError.notAllowed") = false /\
  listener (destructure standup 1)
    (ErrorOccurred (Some "conference.connectionError.notAllowed")) afterOneReconnect
    = afterOneReconnect /\
  isServiceError (Some "Service unavailable") = false /\
  isServiceError (Some "rate limit exceeded") = true /\
  listener (destructure standup 1)
    (ErrorOccurred (Some "rate limit exceeded")) afterOneReconnect
    = handleConnectionIssue (destructure standup 1) afterOneReconnect.
Proof.
  assert (F : isServiceError (Some "conference.connectionError.notAllowed") = false)
    by reflexivity.
  assert (T : isServiceError (Some "rate limit exceeded") = true) by reflexivity.
  destruct (errorOccurred_filter (destructure standup 1)
              (Some "conference.connectionError.notAllowed") afterOneReconnect)
    as (_ & _ & I).
  destruct (errorOccurred_filter (destructure standup 1)
              (Some "rate limit exceeded") afterOneReconnect)
    as (_ & P & _).
  exact (conj F (conj (I F) (conj eq_refl (conj T (P T))))).
Defined.

(** * The popup observer *)

Lemma elem_of_concat {A} (x : A) (ls : list (list A)) :
  x ∈ concat ls <-> exists l, l ∈ ls /\ x ∈ l.
Proof.
  rewrite list_elem_of_In, in_concat. split; intros (l & H1 & H2); exists l;
    rewrite ?list_elem_of_In in *; auto.
Qed.

Lemma onPopup_click i p i' j :
  Click i' j ∈ onPopup i p <->
  i' = i /\ isEssential p = false /\
  exists t, pp_buttons p !! j = Some t /\ isDismissButton t = true.
Proof.
  unfold onPopup. destruct (isEssential p).
  - split; [intros H; now apply elem_of_nil in H|intros (_ & H & _); discriminate].
  - rewrite elem_of_app, elem_of_concat. split.
    + intros [(l & Hl & Hx)|H].
      * apply elem_of_lookup_imap in Hl as (j' & t & -> & Ht).
        destruct (isDismissButton t) eqn:D; [|now apply elem_of_nil in Hx].
        apply list_elem_of_singleton in Hx. injection Hx as -> ->. eauto.
      * destruct (pp_parentNode p); [|now apply elem_of_nil in H].
        apply list_elem_of_singleton in H. discriminate.
    + intros (-> & _ & t & Ht & D). left. exists [Click i j]. split; [|left].
      apply elem_of_lookup_imap. exists j, t. now rewrite D.
Qed.

Lemma onPopup_hide i p i' :
  Hide i' ∈ onPopup i p <->
  i' = i /\ isEssential p = false /\ pp_parentNode p = true.
Proof.
  unfold onPopup. destruct (isEssential p).
  - split; [intros H; now apply elem_of_nil in H|intros (_ & H & _); discriminate].
  - rewrite elem_of_app, elem_of_concat. split.
    + intros [(l & Hl & Hx)|H].
      * apply elem_of_lookup_imap in Hl as (j' & t & -> & Ht).
        destruct (isDismissButton t); [|now apply elem_of_nil in Hx].
        apply list_elem_of_singleton in Hx. discriminate.
      * destruct (pp_parentNode p); [|now apply elem_of_nil in H].
        apply list_elem_of_singleton in H. injection H as ->. auto.
    + intros (-> & _ & ->). right. left.
Qed.

(** The popup observer clicks a button exactly when the button's text
    contains "Close", "Cancel" or "Later" and it sits in a popup whose text
    contains "upgrade", "premium" or "service"; it hides exactly those
    popups, when they have a parent; so a dialog whose text has none of
    the three words is neither clicked in nor hidden, and without access
    to the iframe's document nothing is done at all. *)
Theorem observerCallback_actions (popups : list Popup) :
  (forall i j, Click i j ∈ observerCallback (Some popups) <->
     exists p t, popups !! i = Some p /\ isEssential p = false /\
                 pp_buttons p !! j = Some t /\ isDismissButton t = true) /\
  (forall i, Hide i ∈ observerCallback (Some popups) <->
     exists p, popups !! i = Some p /\ isEssential p = false /\
               pp_parentNode p = true) /\
  (forall i p, popups !! i = Some p ->
     (forall a b, pp_textContent p <> a ++ "upgrade" ++ b) ->
     (forall a b, pp_textContent p <> a ++ "premium" ++ b) ->
     (forall a b, pp_textContent p <> a ++ "service" ++ b) ->
     (Hide i ∉ observerCallback (Some popups)) /\
     (forall j, Click i j ∉ observerCallback (Some popups))) /\
  observerCallback None = [].
Proof.
  assert (C : forall i j, Click i j ∈ observerCallback (Some popups) <->
     exists p t, popups !! i = Some p /\ isEssential p = false /\
                 pp_buttons p !! j = Some t /\ isDismissButton t = true).
  { intros i j. simpl. rewrite elem_of_concat. split.
    - intros (l & Hl & Hx). apply elem_of_lookup_imap in Hl as (i' & p & -> & Hp).
      apply onPopup_click in Hx as (-> & E & t & Ht & D). eauto 6.
    - intros (p & t & Hp & E & Ht & D). exists (onPopup i p). split.
      + apply elem_of_lookup_imap. eauto.
      + apply onPopup_click. eauto. }
  assert (H : forall i, Hide i ∈ observerCallback (Some popups) <->
     exists p, popups !! i = Some p /\ isEssential p = false /\
               pp_parentNode p = true).
  { intros i. simpl. rewrite elem_of_concat. split.
    - intros (l & Hl & Hx). apply elem_of_lookup_imap in Hl as (i' & p & -> & Hp).
      apply onPopup_hide in Hx as (-> & E & D). eauto.
    - intros (p & Hp & E & D). exists (onPopup i p). split.
      + apply elem_of_lookup_imap. eauto.
      + apply onPopup_hide. eauto. }
  split; [exact C|]. split; [exact H|]. split; [|reflexivity].
  intros i p Hp U P S.
  assert (E : isEssential p = true).
  { unfold isEssential.
    assert (N : forall sub, (forall a b, pp_textContent p <> a ++ sub ++ b) ->
                            includes (pp_textContent p) sub = false).
    { intros sub Hs. apply not_true_is_false. intros T.
      apply includes_spec in T as (a & b & T). now apply (Hs a b). }
    now rewrite (N _ U), (N _ P), (N _ S). }
  split.
  - rewrite H. intros (p' & Hp' & E' & _). congruence.
  - intros j. rewrite C. intros (p' & t & Hp' & E' & _). congruence.
Qed.

Lemma observerCallback_actions_witness :
  observerCallback (Some [permissionDialog; promotion]) = [Click 1 1; Hide 1] /\
  Hide 0 ∉ observerCallback (Some [permissionDialog; promotion]).
Proof.
  split; [vm_compute; reflexivity|].
  destruct (observerCallback_actions [permissionDialog; promotion]) as (_ & _ & E & _).
  assert (N : forall sub, includes (pp_textContent permissionDialog) sub = false ->
                forall a b, pp_textContent permissionDialog <> a ++ sub ++ b).
  { intros sub F a b Q.
    assert (T : includes (pp_textContent permissionDialog) sub = true)
      by (apply includes_spec; eauto).
    congruence. }
  apply (E 0 permissionDialog eq_refl); apply N; vm_compute; reflexivity.
Defined.

(** * The host pages *)

(** ** Trimming *)

Lemma trimStart_shape s :
  trimStart s = "" \/
  exists a s', trimStart s = String a s' /\ isWhiteSpace a = false.
Proof.
  induction s as [|a s IH]; simpl; [now left|].
  destruct (isWhiteSpace a) eqn:W; [exact IH|right; eauto].
Qed.

Lemma trimStart_blank s : trimStart s = "" <-> blank s = true.
Proof.
  induction s as [|a s IH]; simpl; [easy|].
  destruct (isWhiteSpace a); simpl; [exact IH|easy].
Qed.

Lemma trimEnd_blank s : trimEnd s = "" <-> blank s = true.
Proof.
  induction s as [|a s IH]; simpl; [easy|].
  destruct (trimEnd s) as [|b t] eqn:E.
  - destruct (isWhiteSpace a); simpl; [|easy].
    split; [intros _; now apply IH|reflexivity].
  - split; [discriminate|]. intros H. apply andb_true_iff in H as [_ H].
    apply IH in H. discriminate.
Qed.

Lemma trimEnd_head a s :
  isWhiteSpace a = false -> exists t, trimEnd (String a s) = String a t.
Proof.
  intros W. simpl. destruct (trimEnd s); rewrite ?W; eauto.
Qed.

Lemma trimEnd_idempotent s : trimEnd (trimEnd s) = trimEnd s.
Proof.
  induction s as [|a s IH]; simpl; [reflexivity|].
  destruct (trimEnd s) as [|b t] eqn:E.
  - destruct (isWhiteSpace a) eqn:W; simpl; [reflexivity|now rewrite W].
  - change (trimEnd (String a (String b t)))
      with (match trimEnd (String b t) with
            | EmptyString => if isWhiteSpace a then EmptyString else String a EmptyString
            | t' => String a t'
            end).
    now rewrite IH.
Qed.

(** [trim] empties exactly the strings made of white space, and trimming
    twice is trimming once. *)
Lemma trim_blank s : trim s = "" <-> blank s = true.
Proof.
  unfold trim. rewrite trimEnd_blank, <- (trimStart_blank s).
  destruct (trimStart_shape s) as [E|(a & s' & E & W)]; rewrite E; simpl.
  - easy.
  - rewrite W. simpl. split; discriminate.
Qed.

Lemma trim_idempotent s : trim (trim s) = trim s.
Proof.
  unfold trim.
  destruct (trimStart_shape s) as [E|(a & s' & E & W)]; rewrite E; [reflexivity|].
  destruct (trimEnd_head a s' W) as [t Ht]. rewrite Ht.
  simpl trimStart. rewrite W, <- Ht. apply trimEnd_idempotent.
Qed.

Lemma orElse_nonempty x d : d <> "" -> orElse x d <> "".
Proof. intros Hd. unfold orElse. destruct x; [case_decide|]; congruence. Qed.

(** ** The index route *)

(** The server the index page hands to the component: the custom one,
    trimmed, exactly when the box is ticked and the field is not blank (so
    it has no white space around it and is not empty); in every other case
    the domain the loader gave. *)
Theorem index_activeDomain (d : Index.LoaderData) (st : Index.State) :
  (Index.useCustomServer st = true -> blank (Index.customServer st) = false ->
   Index.activeDomain d st = trim (Index.customServer st) /\
   trim (Index.activeDomain d st) = Index.activeDomain d st /\
   Index.activeDomain d st <> "") /\
  (Index.useCustomServer st = false \/ blank (Index.customServer st) = true ->
   Index.activeDomain d st = Index.jitsiDomain d).
Proof.
  unfold Index.activeDomain. split.
  - intros U B.
    assert (N : trim (Index.customServer st) <> "").
    { intros E. apply trim_blank in E. congruence. }
    rewrite U. simpl. rewrite bool_decide_eq_false_2 by exact N. simpl.
    split; [reflexivity|]. split; [apply trim_idempotent|exact N].
  - intros [U|B].
    + now rewrite U.
    + apply trim_blank in B. rewrite B. simpl. now rewrite andb_false_r.
Qed.

Lemma index_activeDomain_witness :
  Index.useCustomServer customForm = true /\
  blank (Index.customServer customForm) = false /\
  Index.activeDomain (Index.loader None 7) customForm = "jitsi.example.org" /\
  Index.activeDomain (Index.loader None 7) customForm <> "".
Proof.
  assert (U : Index.useCustomServer customForm = true) by reflexivity.
  assert (B : blank (Index.customServer customForm) = false) by reflexivity.
  destruct (index_activeDomain (Index.loader None 7) customForm) as (C & _).
  destruct (C U B) as (E & _ & N).
  refine (conj U (conj B (conj _ N))). rewrite E. vm_compute. reflexivity.
Defined.

(** Whatever the environment of the server process, the domain the
    loader returns is the value of JITSI_DOMAIN when that is set and not
    empty and "meet.jit.si" otherwise (also when the loader gets no
    context at all); it is never empty, and neither is the domain the
    index page hands to the component, whatever is in the form. *)
Theorem index_domain_never_empty (processEnv : gmap string string) (random : nat)
    (st : Index.State) :
  Index.jitsiDomain (Index.loader (Some (getLoadContext processEnv)) random)
    = orElse (processEnv !! "JITSI_DOMAIN") "meet.jit.si" /\
  Index.jitsiDomain (Index.loader (Some (getLoadContext processEnv)) random) <> "" /\
  Index.jitsiDomain (Index.loader None random) = "meet.jit.si" /\
  Index.jitsiDomain (Index.loader (Some {| env := None |}) random) = "meet.jit.si" /\
  Index.activeDomain (Index.loader (Some (getLoadContext processEnv)) random) st <> "".
Proof.
  assert (D : "meet.jit.si" <> "") by discriminate.
  assert (N : orElse (processEnv !! "JITSI_DOMAIN") "meet.jit.si" <> "")
    by now apply orElse_nonempty.
  assert (E : Index.jitsiDomain (Index.loader (Some (getLoadContext processEnv)) random)
              = orElse (processEnv !! "JITSI_DOMAIN") "meet.jit.si").
  { simpl. unfold orElse at 1. now rewrite decide_False by exact N. }
  split; [exact E|]. split; [now rewrite E|]. split; [reflexivity|].
  split; [reflexivity|].
  unfold Index.activeDomain.
  destruct (Index.useCustomServer st &&
            negb (bool_decide (trim (Index.customServer st) = ""))) eqn:C.
  - apply andb_true_iff in C as [_ C]. apply negb_true_iff in C.
    now apply bool_decide_eq_false in C.
  - now rewrite E.
Qed.

(** Pressing Join on the index page.  With an empty room name or an
    empty display name the browser blocks the submission: nothing changes
    and no alert is raised.  With both filled in, a room name of white
    space only raises the alert "Please enter a room name" and leaves the
    page out of the meeting; any other room name enters the meeting, and
    the component gets the room name as typed (untrimmed), the display
    name, the active domain and the two mute boxes. *)
Theorem index_join (d : Index.LoaderData) (st : Index.State) :
  (Index.ix_roomName st = "" \/ Index.ix_displayName st = "" ->
   Index.submit st = st) /\
  (Index.ix_roomName st <> "" -> Index.ix_displayName st <> "" ->
   blank (Index.ix_roomName st) = true ->
   Index.isInMeeting (Index.submit st) = Index.isInMeeting st /\
   Index.ix_alerts (Index.submit st)
     = (Index.ix_alerts st ++ ["Please enter a room name"])%list /\
   (Index.isInMeeting st = false -> Index.meeting d (Index.submit st) = None)) /\
  (Index.ix_displayName st <> "" ->
   blank (Index.ix_roomName st) = false ->
   Index.ix_alerts (Index.submit st) = Index.ix_alerts st /\
   Index.meeting d (Index.submit st)
     = Some {| p_roomName := Index.ix_roomName st;
               p_displayName := Some (Index.ix_displayName st);
               p_domain := Some (Index.activeDomain d st);
               p_startWithAudioMuted := Some (Index.audioMuted st);
               p_startWithVideoMuted := Some (Index.videoMuted st) |}).
Proof.
  unfold Index.submit. split; [|split].
  - intros H. now rewrite decide_True by exact H.
  - intros R N B. rewrite decide_False by (intros [H|H]; contradiction).
    unfold Index.handleJoinMeeting, Index.meeting.
    apply trim_blank in B. rewrite decide_True by exact B. simpl.
    repeat split. now intros ->.
  - intros N B.
    assert (R : Index.ix_roomName st <> "") by (intros E; rewrite E in B; discriminate B).
    assert (T : trim (Index.ix_roomName st) <> "").
    { intros E. apply trim_blank in E. congruence. }
    rewrite decide_False by (intros [H|H]; contradiction).
    unfold Index.handleJoinMeeting, Index.meeting.
    rewrite decide_False by exact T. simpl. split; reflexivity.
Qed.

Lemma index_join_witness :
  Index.ix_roomName blankRoomForm <> "" /\
  Index.ix_displayName blankRoomForm <> "" /\
  blank (Index.ix_roomName blankRoomForm) = true /\
  Index.ix_displayName customForm <> "" /\
  blank (Index.ix_roomName customForm) = false /\
  Index.ix_alerts (Index.submit blankRoomForm) = ["Please enter a room name"] /\
  Index.meeting (Index.loader None 7) (Index.submit blankRoomForm) = None /\
  Index.meeting (Index.loader None 7) (Index.submit customForm)
    = Some customFormProps /\
  Index.submit (Index.init {| Index.defaultRoomName := ""; Index.jitsiDomain := "meet.jit.si" |})
    = Index.init {| Index.defaultRoomName := ""; Index.jitsiDomain := "meet.jit.si" |}.
Proof.
  assert (R1 : Index.ix_roomName blankRoomForm <> "") by discriminate.
  assert (N1 : Index.ix_displayName blankRoomForm <> "") by discriminate.
  assert (B1 : blank (Index.ix_roomName blankRoomForm) = true) by reflexivity.
  assert (N2 : Index.ix_displayName customForm <> "") by discriminate.
  assert (B2 : blank (Index.ix_roomName customForm) = false) by reflexivity.
  destruct (index_join (Index.loader None 7) blankRoomForm) as (_ & R & _).
  destruct (R R1 N1 B1) as (_ & A & N).
  destruct (index_join (Index.loader None 7) customForm) as (_ & _ & J).
  destruct (J N2 B2) as (_ & M).
  destruct (index_join (Index.loader None 7)
              (Index.init {| Index.defaultRoomName := ""; Index.jitsiDomain := "meet.jit.si" |}))
    as (E & _).
  refine (conj R1 (conj N1 (conj B1 (conj N2 (conj B2 (conj A (conj (N eq_refl)
            (conj _ (E (or_introl eq_refl)))))))))).
  rewrite M. vm_compute. reflexivity.
Defined.

(** With the room name the loader proposes, whatever number was drawn and
    whatever the context, pressing Join on the untouched form enters the
    meeting without an alert, as "Guest", unmuted, on the loader's
    domain. *)
Theorem index_default_room_joins (context : option LoadContext) (random : nat) :
  Index.ix_alerts
    (Index.handleJoinMeeting (Index.init (Index.loader context random))) = [] /\
  Index.meeting (Index.loader context random)
    (Index.handleJoinMeeting (Index.init (Index.loader context random)))
    = Some {| p_roomName := "room-" ++ pretty random;
              p_displayName := Some "Guest";
              p_domain := Some (Index.jitsiDomain (Index.loader context random));
              p_startWithAudioMuted := Some false;
              p_startWithVideoMuted := Some false |}.
Proof.
  assert (N : trim ("room-" ++ pretty random) <> "").
  { intros E. apply trim_blank in E. discriminate E. }
  unfold Index.handleJoinMeeting, Index.meeting, Index.init. simpl.
  rewrite decide_False by exact N. simpl. split; reflexivity.
Qed.

(** ** The room route *)

(** Pressing Join on the room page.  With an empty name the browser
    blocks the submission: nothing changes and no alert is raised.  With a
    name of white space only the alert "Please enter your name" is raised
    and nothing else changes: nothing is written to the storage and the
    page does not enter the meeting. *)
Theorem room_blank_name_rejected (st : Room.State) :
  (Room.rm_displayName st = "" -> Room.submit st = st) /\
  (Room.rm_displayName st <> "" ->
   blank (Room.rm_displayName st) = true ->
   Room.localStorage (Room.submit st) = Room.localStorage st /\
   Room.hasJoined (Room.submit st) = Room.hasJoined st /\
   Room.rm_displayName (Room.submit st) = Room.rm_displayName st /\
   Room.rm_alerts (Room.submit st)
     = (Room.rm_alerts st ++ ["Please enter your name"])%list /\
   (Room.hasJoined st = false -> Room.meeting (Room.submit st) = None)).
Proof.
  unfold Room.submit. split.
  - intros E. now rewrite decide_True by exact E.
  - intros N B. rewrite decide_False by exact N. apply trim_blank in B.
    unfold Room.handleJoinMeeting, Room.meeting. rewrite decide_True by exact B.
    simpl. repeat split. now intros ->.
Qed.

Lemma room_blank_name_rejected_witness :
  Room.rm_displayName spacesTyped <> "" /\
  blank (Room.rm_displayName spacesTyped) = true /\
  Room.visit "retro" ∅ (Some "   ") = Room.submit spacesTyped /\
  Room.hasJoined (Room.submit spacesTyped) = false /\
  Room.localStorage (Room.submit spacesTyped) = ∅ /\
  Room.rm_alerts (Room.submit spacesTyped) = ["Please enter your name"] /\
  Room.meeting (Room.submit spacesTyped) = None /\
  Room.visit "retro" ∅ None = Room.loadStoredName (Room.init "retro" ∅).
Proof.
  assert (N : Room.rm_displayName spacesTyped <> "") by discriminate.
  assert (B : blank (Room.rm_displayName spacesTyped) = true) by reflexivity.
  destruct (room_blank_name_rejected spacesTyped) as (_ & R).
  destruct (R N B) as (L & J & _ & A & M).
  destruct (room_blank_name_rejected (Room.loadStoredName (Room.init "retro" ∅)))
    as (E & _).
  exact (conj N (conj B (conj eq_refl (conj J (conj L (conj A (conj (M eq_refl)
           (E eq_refl)))))))).
Defined.

(** The display name survives between visits: a visitor who joins under
    a name that is not blank enters the meeting and has the name stored, as
    typed, under "jitsi-display-name", every other key of the storage
    untouched; on a later visit to any room the page finds the name and the
    form can be submitted without typing: the visitor enters that room
    under the same name, with no alert. *)
Theorem room_name_round_trip (room room' name : string) (storage : gmap string string) :
  blank name = false ->
  Room.hasJoined (Room.visit room storage (Some name)) = true /\
  Room.localStorage (Room.visit room storage (Some name)) !! Room.storageKey
    = Some name /\
  (forall k, k <> Room.storageKey ->
     Room.localStorage (Room.visit room storage (Some name)) !! k = storage !! k) /\
  Room.rm_alerts
    (Room.visit room' (Room.localStorage (Room.visit room storage (Some name))) None)
    = [] /\
  Room.meeting
    (Room.visit room' (Room.localStorage (Room.visit room storage (Some name))) None)
    = Some {| p_roomName := room';
              p_displayName := Some name;
              p_domain := Some "meet.jit.si";
              p_startWithAudioMuted := None;
              p_startWithVideoMuted := None |}.
Proof.
  intros B.
  assert (T : trim name <> "").
  { intros E. apply trim_blank in E. congruence. }
  assert (N : name <> "") by (intros ->; discriminate B).
  assert (V : Room.visit room storage (Some name)
    = {| Room.roomId := room; Room.rm_displayName := name; Room.hasJoined := true;
         Room.localStorage := <[Room.storageKey := name]> storage;
         Room.rm_alerts := [] |}).
  { unfold Room.visit, Room.loadStoredName, Room.init. simpl.
    destruct (storage !! Room.storageKey) as [old|]; [case_decide|];
      unfold Room.submit, Room.handleJoinMeeting; simpl;
      rewrite (decide_False (P := name = "")) by exact N;
      rewrite decide_False by exact T; reflexivity. }
  rewrite V. simpl. split; [reflexivity|]. split; [apply lookup_insert_eq|].
  split; [intros k Hk; now apply lookup_insert_ne|].
  unfold Room.visit, Room.loadStoredName, Room.init. simpl.
  rewrite lookup_insert_eq. rewrite decide_False by exact N.
  unfold Room.submit, Room.handleJoinMeeting, Room.meeting. simpl.
  rewrite (decide_False (P := name = "")) by exact N.
  rewrite decide_False by exact T. simpl. split; reflexivity.
Qed.

Lemma room_name_round_trip_witness :
  blank "Ada Lovelace" = false /\
  Room.hasJoined (Room.visit "retro" ∅ (Some "Ada Lovelace")) = true /\
  Room.meeting
    (Room.visit "standup"
       (Room.localStorage (Room.visit "retro" ∅ (Some "Ada Lovelace"))) None)
    = Some {| p_roomName := "standup";
              p_displayName := Some "Ada Lovelace";
              p_domain := Some "meet.jit.si";
              p_startWithAudioMuted := None;
              p_startWithVideoMuted := None |}.
Proof.
  assert (B : blank "Ada Lovelace" = false) by reflexivity.
  destruct (room_name_round_trip "retro" "standup" "Ada Lovelace" ∅ B)
    as (J & _ & _ & _ & M).
  exact (conj B (conj J M)).
Defined.

(** ** From the pages to the widget *)

(** What the pages pass down reaches the constructor of the widget: from
    the index page the room, the name, the active domain and the two mute
    boxes; from the room page the room of the URL and the name, always on
    "meet.jit.si" and with microphone and camera on. *)
Theorem pages_reach_widget (d : Index.LoaderData) (ix : Index.State)
    (rm : Room.State) (p : JitsiMeetProps) :
  (Index.meeting d ix = Some p ->
   exists o,
     instances (run [Render false] (mount p true))
       = [{| i_domain := Index.activeDomain d ix; i_options := o;
             i_listeners := destructure p 0 |}] /\
     o_roomName o = Index.ix_roomName ix /\
     userInfo_displayName o = Index.ix_displayName ix /\
     co_startWithAudioMuted (configOverwrite o) = Index.audioMuted ix /\
     co_startWithVideoMuted (configOverwrite o) = Index.videoMuted ix) /\
  (Room.meeting rm = Some p ->
   exists o,
     instances (run [Render false] (mount p true))
       = [{| i_domain := "meet.jit.si"; i_options := o;
             i_listeners := destructure p 0 |}] /\
     o_roomName o = Room.roomId rm /\
     userInfo_displayName o = Room.rm_displayName rm /\
     co_startWithAudioMuted (configOverwrite o) = false /\
     co_startWithVideoMuted (configOverwrite o) = false).
Proof.
  split.
  - unfold Index.meeting. destruct (Index.isInMeeting ix); [|discriminate].
    intros [= <-]. eexists. split; [reflexivity|]. repeat split.
  - unfold Room.meeting. destruct (Room.hasJoined rm); [|discriminate].
    intros [= <-]. eexists. split; [reflexivity|]. repeat split.
Qed.

Lemma pages_reach_widget_witness :
  Index.meeting (Index.loader None 7) (Index.handleJoinMeeting customForm)
    = Some customFormProps /\
  (co_startWithAudioMuted ∘ configOverwrite ∘ i_options)
    <$> instances (run [Render false] (mount customFormProps true))
    = [true].
Proof.
  assert (M : Index.meeting (Index.loader None 7) (Index.handleJoinMeeting customForm)
              = Some customFormProps) by (vm_compute; reflexivity).
  destruct (pages_reach_widget (Index.loader None 7) (Index.handleJoinMeeting customForm)
              (Room.init "retro" ∅) customFormProps) as (I & _).
  destruct (I M) as (o & E & _ & _ & A & _).
  split; [exact M|]. rewrite E. simpl. rewrite A. reflexivity.
Defined.
